(** * llm-fastapi: request validation, dispatch and the shared-secret guard

    A shallow embedding of [main.py]: the shared-secret guard
    [get_secret_key], the chat dispatcher [chat] and the OpenAI fine-tuning
    endpoint [finetune].  Handlers are written in a small monad that threads
    the outcome (a returned value or a raised exception) together with the
    log of the calls made to imported collaborators, so that statements of
    the form "no call is made before ..." are statements about that log. *)

From Stdlib Require Import ZArith List Strings.Byte.
From stdpp Require Import gmap strings list pretty.

Set Warnings "-register-all".
Local Open Scope string_scope.
Local Open Scope list_scope.
Local Open Scope Z_scope.

(** ** Python values *)

Module Py.

(** The Python objects the handlers touch.  [VFunction] is a function
    object (named by its qualified name), [VTyping] a construct of the
    [typing] module (named by its repr), [VObject] any other opaque object
    (a loaded model, a tokenizer, a float, ...). *)
Inductive PyVal : Type :=
| VNone
| VBool (b : bool)
| VInt (z : Z)
| VStr (s : string)
| VList (l : list PyVal)
| VDict (d : list (string * PyVal))
| VFunction (qualname : string)
| VTyping (repr : string)
| VObject (id : nat).

(** A [dict] with string keys, in insertion order. *)
Definition PyDict : Type := list (string * PyVal).

(** Exceptions.  Every constructor is a subclass of Python's [Exception],
    which is what [except Exception] catches. *)
Inductive exn : Type :=
| HTTPException (status_code : Z) (detail : string)
| TypeError (msg : string)
| KeyError (key : string)
| UnboundLocalError (name : string)
| JSONDecodeError (msg : string)
| UnicodeDecodeError (msg : string)
| OtherException (cls : string) (msg : string).

(** [str(e)]; for [HTTPException] it is starlette's "status: detail". *)
Definition exc_str (e : exn) : string :=
  match e with
  | HTTPException sc d => pretty sc +:+ ": " +:+ d
  | TypeError m | JSONDecodeError m | UnicodeDecodeError m => m
  | KeyError k => "'" +:+ k +:+ "'"
  | UnboundLocalError x =>
      "cannot access local variable '" +:+ x
        +:+ "' where it is not associated with a value"
  | OtherException _ m => m
  end.

Inductive Result (A : Type) : Type :=
| Return (a : A)
| Raise (e : exn).
Arguments Return {A} a.
Arguments Raise {A} e.

(** Applying a total function to the value of a successful outcome. *)
Definition rmap {A B} (f : A -> B) (r : Result A) : Result B :=
  match r with
  | Return a => Return (f a)
  | Raise e => Raise e
  end.

(** [HTTPException(status_code, detail=None, headers=None)]: the status
    code is a required argument of fastapi's constructor, so building the
    exception without it raises [TypeError] instead. *)
Definition HTTPException_init (status_code : option Z) (detail : string)
  : Result exn :=
  match status_code with
  | Some sc => Return (HTTPException sc detail)
  | None =>
      Raise (TypeError
        "HTTPException.__init__() missing 1 required positional argument: 'status_code'")
  end.

(** [d[key]] on a dict. *)
Fixpoint getitem (d : PyDict) (key : string) : Result PyVal :=
  match d with
  | [] => Raise (KeyError key)
  | (k, v) :: d' => if String.eqb k key then Return v else getitem d' key
  end.

(** [key in d]. *)
Definition contains (d : PyDict) (key : string) : bool :=
  existsb (fun kv => String.eqb (fst kv) key) d.

(** Reading a local variable: a name that no executed statement has bound
    raises [UnboundLocalError]. *)
Definition read_local (name : string) (slot : option PyVal) : Result PyVal :=
  match slot with
  | Some v => Return v
  | None => Raise (UnboundLocalError name)
  end.

(** [s.startswith(p)]. *)
Fixpoint startswith (s p : string) {struct p} : bool :=
  match p, s with
  | EmptyString, _ => true
  | String a p', String b s' => if Ascii.eqb a b then startswith s' p' else false
  | String _ _, EmptyString => false
  end.

(** [s[n:]] for [0 <= n]. *)
Fixpoint slice_from (n : nat) (s : string) : string :=
  match n, s with
  | O, _ => s
  | S n', String _ s' => slice_from n' s'
  | S _, EmptyString => EmptyString
  end.

(** [a != b] where [b] may be [None] (an unset environment variable). *)
Definition str_ne (a : string) (b : option string) : bool :=
  match b with
  | Some b' => negb (String.eqb a b')
  | None => true
  end.

End Py.
Export Py.

(** ** The handler monad: outcome and call log *)

(** Text decoded from an upload: a sequence of Unicode code points. *)
Definition ustring : Type := list Z.

(** One turn of a chat history. *)
Record ChatTurn : Type := { role : string; content : string }.

(** A call to an imported collaborator, with its arguments. *)
Inductive Event : Type :=
| CallValidateDataFormat (records : list PyVal)
| CallValidateMessages (records : list PyVal)
| CallUploadTrainingFile (file_content : list byte)
| CallFineTuneOpenaiModel (file_id : PyVal) (model : string)
                          (suffix : PyVal) (n_epochs : Z)
| CallGenerateTextPhi (model tokenizer : PyVal) (question : option string)
| CallCreatePrompt (models : PyVal) (model_name : string)
                   (chat_history : list ChatTurn)
| CallGenerateTextPipeline (model tokenizer : PyVal) (prompt : PyVal).

Module Handler.

Definition Run (A : Type) : Type := list Event * Result A.

Definition ret {A} (a : A) : Run A := ([], Return a).
Definition raise {A} (e : exn) : Run A := ([], Raise e).
Definition lift {A} (r : Result A) : Run A := ([], r).

(** A collaborator call: logged, then its outcome. *)
Definition call {A} (ev : Event) (r : Result A) : Run A := ([ev], r).

Definition bind {A B} (m : Run A) (f : A -> Run B) : Run B :=
  match m with
  | (t, Return a) => let '(t', r) := f a in (t ++ t', r)
  | (t, Raise e) => (t, Raise e)
  end.

(** [try: m  except Exception as e: h e]. *)
Definition try_except {A} (m : Run A) (h : exn -> Run A) : Run A :=
  match m with
  | (t, Raise e) => let '(t', r) := h e in (t ++ t', r)
  | (t, Return a) => (t, Return a)
  end.

(** [raise C(...)] where the constructor call itself may raise. *)
Definition raise_new {A} (c : Result exn) : Run A :=
  bind (lift c) raise.

Definition trace {A} (m : Run A) : list Event := fst m.
Definition outcome {A} (m : Run A) : Result A := snd m.

End Handler.
Export Handler.

Notation "f <$$> r" := (rmap f r) (at level 61, left associativity).
Notation "'let*' x := m 'in' k" := (bind m (fun x => k))
  (at level 10, x name, m at level 100, k at level 200).

(** ** The shared-secret guard *)

(** [get_secret_key(authorization)], with the module-level [SECRET_KEY]
    ([os.getenv] gives [None] when the variable is unset).  A header value
    reaches the handler as a string of 8-bit characters, which is what
    [string] is; the comparison is character by character. *)
Definition get_secret_key (SECRET_KEY : option string) (authorization : string)
  : Run string :=
  let prefix := "Bearer " in
  if negb (startswith authorization prefix) then
    raise_new (HTTPException_init (Some 401) "Unauthorized: Invalid Secret Key")
  else
    let secret_key := slice_from (String.length prefix) authorization in
    if str_ne secret_key SECRET_KEY then
      raise_new (HTTPException_init (Some 401) "Unauthorized: Invalid Secret Key")
    else ret secret_key.

(** ** Decoding and splitting the uploaded file *)

Module Text.

Definition in_range (lo hi b : Z) : bool := (lo <=? b) && (b <=? hi).

(** Continuation byte payload. *)
Definition tail6 (b : Z) : Z := b - 0x80.

(** Strict UTF-8 decoding of a byte sequence (as numbers 0..255) to code
    points: shortest form only, no surrogates, nothing above U+10FFFF.
    [None] stands for [UnicodeDecodeError]. *)
Fixpoint utf8_decode (bs : list Z) : option ustring :=
  match bs with
  | [] => Some []
  | b0 :: r0 =>
    if in_range 0x00 0x7F b0 then cons b0 <$> utf8_decode r0
    else if in_range 0xC2 0xDF b0 then
      match r0 with
      | b1 :: r1 =>
        if in_range 0x80 0xBF b1
        then cons ((b0 - 0xC0) * 64 + tail6 b1) <$> utf8_decode r1
        else None
      | _ => None
      end
    else if in_range 0xE0 0xEF b0 then
      match r0 with
      | b1 :: b2 :: r2 =>
        let lo := if b0 =? 0xE0 then 0xA0 else 0x80 in
        let hi := if b0 =? 0xED then 0x9F else 0xBF in
        if in_range lo hi b1 && in_range 0x80 0xBF b2
        then cons ((b0 - 0xE0) * 4096 + tail6 b1 * 64 + tail6 b2)
               <$> utf8_decode r2
        else None
      | _ => None
      end
    else if in_range 0xF0 0xF4 b0 then
      match r0 with
      | b1 :: b2 :: b3 :: r3 =>
        let lo := if b0 =? 0xF0 then 0x90 else 0x80 in
        let hi := if b0 =? 0xF4 then 0x8F else 0xBF in
        if in_range lo hi b1 && in_range 0x80 0xBF b2 && in_range 0x80 0xBF b3
        then cons ((b0 - 0xF0) * 262144 + tail6 b1 * 4096
                   + tail6 b2 * 64 + tail6 b3) <$> utf8_decode r3
        else None
      | _ => None
      end
    else None
  end.

(** [file_content.decode('utf-8')]. *)
Definition decode (file_content : list byte) : Result ustring :=
  match utf8_decode (map (fun b => Z.of_N (Byte.to_N b)) file_content) with
  | Some s => Return s
  | None => Raise (UnicodeDecodeError "'utf-8' codec can't decode bytes")
  end.

(** The code points [str.splitlines] breaks lines at, besides the pair
    CR LF: LF, VT, FF, CR, FS, GS, RS, NEL, LS and PS. *)
Definition is_linebreak (c : Z) : bool :=
  in_range 10 13 c || in_range 28 30 c || (c =? 0x85)
  || (c =? 0x2028) || (c =? 0x2029).

(** [cur] holds the current line, reversed. *)
Fixpoint splitlines_from (cur : ustring) (s : ustring) : list ustring :=
  match s with
  | [] => match cur with [] => [] | _ => [rev cur] end
  | c :: rest =>
    if c =? 13 then
      match rest with
      | c' :: rest' =>
        if c' =? 10 then rev cur :: splitlines_from [] rest'
        else rev cur :: splitlines_from [] rest
      | [] => rev cur :: splitlines_from [] rest
      end
    else if is_linebreak c then rev cur :: splitlines_from [] rest
    else splitlines_from (c :: cur) rest
  end.

(** [s.splitlines()]: the lines of [s] without their line breaks. *)
Definition splitlines (s : ustring) : list ustring := splitlines_from [] s.

(** The truth value of a string: non-empty. *)
Definition nonempty (line : ustring) : bool :=
  match line with [] => false | _ => true end.

End Text.
Export Text.

(** ** The collaborators *)

(** Modelled from the spec: an entry of the model registry built by
    [load_models] (not part of this file's source), holding the model
    handle and the tokenizer handle read back with ['model'] and
    ['tokenizer']. *)
Record ModelEntry : Type := { entry_model : PyVal; entry_tokenizer : PyVal }.

(** Modelled from the spec: the request body of the chat endpoint, the
    [ChatMessages] model of [models.py] (not part of this file's source):
    selected model, ordered history of role and content pairs, and a
    single question that may be absent ([None]). *)
Record ChatMessages : Type := {
  selected_model : string;
  chat_history : list ChatTurn;
  question : option string
}.

(** Everything [main.py] imports or reads from its environment, taken as
    parameters: the process secret, the registry [load_models] built, the
    static model list, [json.loads], the two validators, the two OpenAI
    wrappers and the three text-generation helpers.  The validators return
    their error collection, a mapping from error key to detail; the OpenAI
    wrappers return the provider's response object, a mapping.  Each
    function may raise instead of returning. *)
Record World : Type := {
  SECRET_KEY : option string;
  loaded_models : gmap string ModelEntry;
  models : PyVal;
  json_loads : ustring -> Result PyVal;
  validate_data_format : list PyVal -> Result PyDict;
  validate_messages : list PyVal -> Result PyDict;
  upload_training_file : list byte -> Result PyDict;
  fine_tune_openai_model : PyVal -> string -> PyVal -> Z -> Result PyDict;
  generate_text_phi1_5 : PyVal -> PyVal -> option string -> Result PyVal;
  create_prompt : PyVal -> string -> list ChatTurn -> Result PyVal;
  generate_text_pipeline : PyVal -> PyVal -> PyVal -> Result PyVal
}.

(** [loaded_models[name]]. *)
Definition registry_getitem (reg : gmap string ModelEntry) (name : string)
  : Result ModelEntry :=
  match reg !! name with
  | Some e => Return e
  | None => Raise (KeyError name)
  end.

(** The truth value of a dict: non-empty. *)
Definition truthy (d : PyDict) : bool :=
  match d with [] => false | _ => true end.

(** [[f(x) for x in xs]], stopping at the first call that raises. *)
Fixpoint comprehension {A B} (f : A -> Result B) (xs : list A)
  : Result (list B) :=
  match xs with
  | [] => Return []
  | x :: xs' =>
    match f x with
    | Raise e => Raise e
    | Return y =>
      match comprehension f xs' with
      | Raise e => Raise e
      | Return ys => Return (y :: ys)
      end
    end
  end.

(** ** The chat dispatcher *)

(** [chat(chat_messages)].  The [secret_key] dependency is resolved by the
    framework before the body runs and is not used by the body. *)
Definition chat (w : World) (chat_messages : ChatMessages) : Run PyDict :=
  let model_name := selected_model chat_messages in
  let chat_history := chat_history chat_messages in
  if negb (bool_decide (model_name ∈ dom (loaded_models w))) then
    raise_new (HTTPException_init (Some 400) "Invalid model name")
  else
    let* model := lift (entry_model <$$> registry_getitem (loaded_models w) model_name) in
    let* tokenizer := lift (entry_tokenizer <$$> registry_getitem (loaded_models w) model_name) in
    try_except
      (let* generated_text :=
         (if String.eqb model_name "microsoft/phi-1_5" then
            let question := question chat_messages in
            call (CallGenerateTextPhi model tokenizer question)
                 (generate_text_phi1_5 w model tokenizer question)
          else
            let* prompt :=
              call (CallCreatePrompt (models w) model_name chat_history)
                   (create_prompt w (models w) model_name chat_history) in
            call (CallGenerateTextPipeline model tokenizer prompt)
                 (generate_text_pipeline w model tokenizer prompt)) in
       ret [("success", VBool true); ("message", generated_text)])
      (fun e => raise_new (HTTPException_init (Some 500) (exc_str e))).

(** ** The OpenAI fine-tuning endpoint *)

(** The default value the signature declares for [suffix]: the typing
    construct [Optional[str]] itself. *)
Definition finetune_suffix_default : PyVal := VTyping "typing.Optional[str]".

(** [finetune(file, fine_tuning_model, suffix, n_epochs)] of route
    [/api/finetuning/openai].  [suffix_arg] is [None] when the request does
    not supply the parameter, in which case the declared default is bound.
    The local [fine_tuning_job_id] is bound only inside the [try] block; the
    [else] branch reads it unbound.  The assignment to [openai.api_key]
    calls no collaborator and cannot fail, so it leaves no mark here. *)
Definition finetune (w : World) (file : list byte) (fine_tuning_model : string)
    (suffix_arg : option string) (n_epochs : Z) : Run PyDict :=
  let suffix := default finetune_suffix_default (VStr <$> suffix_arg) in
  let file_content := file in
  let* file_str := lift (decode file_content) in
  let* file_list :=
    lift (comprehension (json_loads w) (List.filter nonempty (splitlines file_str))) in
  let* data_format_errors :=
    call (CallValidateDataFormat file_list) (validate_data_format w file_list) in
  let* messages_errors :=
    call (CallValidateMessages file_list) (validate_messages w file_list) in
  if negb (truthy messages_errors) && negb (truthy data_format_errors) then
    try_except
      (let* file_submit_result :=
         call (CallUploadTrainingFile file_content)
              (upload_training_file w file_content) in
       let* file_id := lift (getitem file_submit_result "id") in
       let* res :=
         call (CallFineTuneOpenaiModel file_id fine_tuning_model suffix n_epochs)
              (fine_tune_openai_model w file_id fine_tuning_model suffix n_epochs) in
       let* fine_tuning_job_id := lift (getitem res "id") in
       ret [("success", VBool true);
            ("id", fine_tuning_job_id);
            ("message", VStr "Your request has been successfully sent to OpenAI")])
      (fun e => raise_new (HTTPException_init None (exc_str e)))
  else
    let errors :=
      [("data_format", VFunction "validate_data_format");
       ("messages", VFunction "validate_messages")] in
    let* fine_tuning_job_id := lift (read_local "fine_tuning_job_id" None) in
    ret [("success", VBool false);
         ("id", fine_tuning_job_id);
         ("error", VDict errors)].

(** ** Observations on a run *)

(** The records the two validators are given: the upload decoded, split
    into lines, the empty lines dropped and each remaining line parsed. *)
Definition parsed_records (w : World) (file : list byte) : Result (list PyVal) :=
  match decode file with
  | Return file_str =>
      comprehension (json_loads w) (List.filter nonempty (splitlines file_str))
  | Raise e => Raise e
  end.

(** The [try] block of [finetune] together with its [except] clause, as a
    run of its own. *)
Definition submission_block (w : World) (file_content : list byte)
    (fine_tuning_model : string) (suffix : PyVal) (n_epochs : Z) : Run PyDict :=
  try_except
    (let* file_submit_result :=
       call (CallUploadTrainingFile file_content)
            (upload_training_file w file_content) in
     let* file_id := lift (getitem file_submit_result "id") in
     let* res :=
       call (CallFineTuneOpenaiModel file_id fine_tuning_model suffix n_epochs)
            (fine_tune_openai_model w file_id fine_tuning_model suffix n_epochs) in
     let* fine_tuning_job_id := lift (getitem res "id") in
     ret [("success", VBool true);
          ("id", fine_tuning_job_id);
          ("message", VStr "Your request has been successfully sent to OpenAI")])
    (fun e => raise_new (HTTPException_init None (exc_str e))).

(** Calls that leave the process for the fine-tuning provider. *)
Definition is_provider_call (ev : Event) : bool :=
  match ev with
  | CallUploadTrainingFile _ | CallFineTuneOpenaiModel _ _ _ _ => true
  | _ => false
  end.

(** Calls of a text-generation routine. *)
Definition is_generation_call (ev : Event) : bool :=
  match ev with
  | CallGenerateTextPhi _ _ _ | CallGenerateTextPipeline _ _ _ => true
  | _ => false
  end.

(** The records a validator call was given, if the event is one. *)
Definition validated_records (ev : Event) : option (list PyVal) :=
  match ev with
  | CallValidateDataFormat recs | CallValidateMessages recs => Some recs
  | _ => None
  end.

(** Calls of one of the two validators. *)
Definition is_validator_call (ev : Event) : bool :=
  match ev with
  | CallValidateDataFormat _ | CallValidateMessages _ => true
  | _ => false
  end.

(** The two provider calls, told apart. *)
Definition is_upload_call (ev : Event) : bool :=
  match ev with CallUploadTrainingFile _ => true | _ => false end.
Definition is_job_call (ev : Event) : bool :=
  match ev with CallFineTuneOpenaiModel _ _ _ _ => true | _ => false end.

(** The two code paths of the dispatcher. *)
Inductive Variant : Type := DirectQuestion | TemplatedHistory.

(** Which path a run of [chat] took, read off its first call. *)
Definition variant_taken (t : list Event) : option Variant :=
  match t with
  | CallGenerateTextPhi _ _ _ :: _ => Some DirectQuestion
  | CallCreatePrompt _ _ _ :: _ => Some TemplatedHistory
  | _ => None
  end.

(** A run that ends in a 400-class [HTTPException]. *)
Definition fails_with_client_error {A} (r : Run A) : Prop :=
  exists detail, outcome r = Raise (HTTPException 400 detail).

(** The guard's refusal. *)
Definition unauthorized : exn :=
  HTTPException 401 "Unauthorized: Invalid Secret Key".

(** The dispatcher's refusal of an unknown model. *)
Definition invalid_model_name : exn := HTTPException 400 "Invalid model name".

(** What [HTTPException(detail=...)] raises in place of the exception it
    was meant to build. *)
Definition missing_status_code : exn :=
  TypeError
    "HTTPException.__init__() missing 1 required positional argument: 'status_code'".

(** ** The routes: guard, then handler *)

(** Route [POST /api/chat/opensourcemodel].  The parameter
    [secret_key = Depends(get_secret_key)] is resolved from the
    [Authorization] header before the body is entered; when the guard
    raises, the body does not run. *)
Definition chat_route (w : World) (authorization : string)
    (chat_messages : ChatMessages) : Run PyDict :=
  let* secret_key := get_secret_key (SECRET_KEY w) authorization in
  chat w chat_messages.

(** Route [POST /api/finetuning/openai], guarded the same way. *)
Definition finetune_route (w : World) (authorization : string)
    (file : list byte) (fine_tuning_model : string)
    (suffix_arg : option string) (n_epochs : Z) : Run PyDict :=
  let* secret_key := get_secret_key (SECRET_KEY w) authorization in
  finetune w file fine_tuning_model suffix_arg n_epochs.

(** The envelope [chat] returns around a generated text. *)
Definition chat_envelope (generated_text : PyVal) : PyDict :=
  [("success", VBool true); ("message", generated_text)].

(** The envelope [finetune] returns around a job identifier. *)
Definition finetune_envelope (fine_tuning_job_id : PyVal) : PyDict :=
  [("success", VBool true);
   ("id", fine_tuning_job_id);
   ("message", VStr "Your request has been successfully sent to OpenAI")].

(** Lines joined with a terminator after each one. *)
Definition join_lines (terminator : ustring) (lines : list ustring) : ustring :=
  concat (map (fun line => line ++ terminator) lines).

(** A line holds no code point at which [str.splitlines] breaks. *)
Definition unbroken (line : ustring) : Prop :=
  Forall (fun c => is_linebreak c = false) line.

(** Bytes that occur in no UTF-8 encoding: 0xC0, 0xC1 and 0xF5 to 0xFF. *)
Definition never_in_utf8 (b : Z) : bool :=
  (b =? 0xC0) || (b =? 0xC1) || (0xF5 <=? b).

(** ** Sample worlds and requests *)

Module Sample.

Definition quote : string := String (Ascii.ascii_of_nat 34%nat) EmptyString.
Definition quoted (s : string) : string := quote +:+ s +:+ quote.

(** Code points of a string of ASCII characters. *)
Definition ustring_of (s : string) : ustring :=
  map (fun a => Z.of_N (Ascii.N_of_ascii a)) (String.list_ascii_of_string s).

(** A well-shaped training line and a line of the wrong shape. *)
Definition good_line : string :=
  "{" +:+ quoted "messages" +:+ ": [{" +:+ quoted "role" +:+ ": "
      +:+ quoted "user" +:+ ", " +:+ quoted "content" +:+ ": "
      +:+ quoted "hi" +:+ "}]}".
Definition bad_shape_line : string :=
  "{" +:+ quoted "bad" +:+ ":" +:+ quoted "shape" +:+ "}".

Definition good_record : PyVal :=
  VDict [("messages",
          VList [VDict [("role", VStr "user"); ("content", VStr "hi")]])].
Definition bad_shape_record : PyVal := VDict [("bad", VStr "shape")].

Definition newline : string := String (Ascii.ascii_of_nat 10%nat) EmptyString.

Definition good_file : list byte :=
  String.list_byte_of_string (good_line +:+ newline).
Definition bad_shape_file : list byte :=
  String.list_byte_of_string (bad_shape_line +:+ newline).
(** A good line, an empty line, a good line. *)
Definition spaced_file : list byte :=
  String.list_byte_of_string
    (good_line +:+ newline +:+ newline +:+ good_line +:+ newline).
(** A good line, an empty line, then a line that is not JSON. *)
Definition broken_file : list byte :=
  String.list_byte_of_string
    (good_line +:+ newline +:+ newline +:+ "not json" +:+ newline).

(** A parser that knows the two sample lines and rejects the rest. *)
Definition sample_json_loads (line : ustring) : Result PyVal :=
  if decide (line = ustring_of good_line) then Return good_record
  else if decide (line = ustring_of bad_shape_line) then Return bad_shape_record
  else Raise (JSONDecodeError "Expecting value: line 1 column 1 (char 0)").

Definition has_messages (rec : PyVal) : bool :=
  match rec with
  | VDict d => contains d "messages"
  | _ => false
  end.

(** A format validator that counts the records without [messages]. *)
Definition sample_validate_data_format (recs : list PyVal) : Result PyDict :=
  let missing := List.filter (fun r => negb (has_messages r)) recs in
  Return (match missing with
          | [] => []
          | _ => [("missing_messages_list", VInt (Z.of_nat (length missing)))]
          end).

Definition phi : ModelEntry :=
  {| entry_model := VObject 0; entry_tokenizer := VObject 1 |}.

Definition world : World := {|
  SECRET_KEY := Some "s3cr3t";
  loaded_models :=
    {[ "microsoft/phi-1_5" := phi; "mistralai/Mistral-7B-Instruct-v0.1" := phi ]};
  models := VList [VStr "microsoft/phi-1_5";
                   VStr "mistralai/Mistral-7B-Instruct-v0.1"];
  json_loads := sample_json_loads;
  validate_data_format := sample_validate_data_format;
  validate_messages := fun _ => Return [];
  upload_training_file := fun _ => Return [("id", VStr "file-abc123")];
  fine_tune_openai_model := fun _ _ _ _ => Return [("id", VStr "ftjob-abc123")];
  generate_text_phi1_5 := fun _ _ _ => Return (VStr "4");
  create_prompt := fun _ _ _ => Return (VStr "<s>[INST] hi [/INST]");
  generate_text_pipeline := fun _ _ _ => Return (VStr "hello")
|}.

Definition connection_error : exn :=
  OtherException "APIConnectionError" "Error communicating with OpenAI".

(** The same world with the provider unreachable. *)
Definition offline_world : World := {|
  SECRET_KEY := SECRET_KEY world;
  loaded_models := loaded_models world;
  models := models world;
  json_loads := json_loads world;
  validate_data_format := validate_data_format world;
  validate_messages := validate_messages world;
  upload_training_file := fun _ => Raise connection_error;
  fine_tune_openai_model := fine_tune_openai_model world;
  generate_text_phi1_5 := generate_text_phi1_5 world;
  create_prompt := create_prompt world;
  generate_text_pipeline :=
    fun _ _ _ => Raise (OtherException "RuntimeError" "CUDA out of memory")
|}.

Definition ask (model : string) (q : option string) : ChatMessages :=
  {| selected_model := model;
     chat_history := [{| role := "user"; content := "2+2?" |}];
     question := q |}.

(** The sample world with a template builder that fails. *)
Definition templateless_world : World := {|
  SECRET_KEY := SECRET_KEY world;
  loaded_models := loaded_models world;
  models := models world;
  json_loads := json_loads world;
  validate_data_format := validate_data_format world;
  validate_messages := validate_messages world;
  upload_training_file := upload_training_file world;
  fine_tune_openai_model := fine_tune_openai_model world;
  generate_text_phi1_5 := generate_text_phi1_5 world;
  create_prompt :=
    fun _ _ _ => Raise (OtherException "ValueError" "no chat template");
  generate_text_pipeline := generate_text_pipeline world
|}.

(** The sample world with a provider whose answers carry no [id]: the
    upload's answer in the first, the job's answer in the second. *)
Definition no_file_id_world : World := {|
  SECRET_KEY := SECRET_KEY world;
  loaded_models := loaded_models world;
  models := models world;
  json_loads := json_loads world;
  validate_data_format := validate_data_format world;
  validate_messages := validate_messages world;
  upload_training_file := fun _ => Return [("object", VStr "file")];
  fine_tune_openai_model := fine_tune_openai_model world;
  generate_text_phi1_5 := generate_text_phi1_5 world;
  create_prompt := create_prompt world;
  generate_text_pipeline := generate_text_pipeline world
|}.
Definition no_job_id_world : World := {|
  SECRET_KEY := SECRET_KEY world;
  loaded_models := loaded_models world;
  models := models world;
  json_loads := json_loads world;
  validate_data_format := validate_data_format world;
  validate_messages := validate_messages world;
  upload_training_file := upload_training_file world;
  fine_tune_openai_model :=
    fun _ _ _ _ => Return [("object", VStr "fine_tuning.job")];
  generate_text_phi1_5 := generate_text_phi1_5 world;
  create_prompt := create_prompt world;
  generate_text_pipeline := generate_text_pipeline world
|}.

(** The sample world with a format validator that fails outright. *)
Definition crashing_validator_world : World := {|
  SECRET_KEY := SECRET_KEY world;
  loaded_models := loaded_models world;
  models := models world;
  json_loads := json_loads world;
  validate_data_format :=
    fun _ => Raise (OtherException "AttributeError" "'list' object has no attribute 'get'");
  validate_messages := validate_messages world;
  upload_training_file := upload_training_file world;
  fine_tune_openai_model := fine_tune_openai_model world;
  generate_text_phi1_5 := generate_text_phi1_5 world;
  create_prompt := create_prompt world;
  generate_text_pipeline := generate_text_pipeline world
|}.

End Sample.

(** * Properties *)

(** ** Strings *)

Lemma startswith_app (p rest : string) : startswith (p +:+ rest) p = true.
Proof.
  induction p as [|a p IH]; simpl; [reflexivity|].
  now rewrite Ascii.eqb_refl.
Qed.

Lemma startswith_split (p s : string) :
  startswith s p = true -> s = p +:+ slice_from (String.length p) s.
Proof.
  revert s. induction p as [|a p IH]; intros s H; simpl in *; [reflexivity|].
  destruct s as [|b s]; [discriminate|].
  destruct (Ascii.eqb a b) eqn:Hab; [|discriminate].
  apply Ascii.eqb_eq in Hab. subst b.
  change (String a s = String a (p +:+ slice_from (String.length p) s)).
  f_equal. now apply IH.
Qed.

Lemma slice_from_app (p rest : string) :
  slice_from (String.length p) (p +:+ rest) = rest.
Proof. induction p as [|a p IH]; simpl; auto. Qed.

Lemma str_ne_false (a : string) (b : option string) :
  str_ne a b = false <-> b = Some a.
Proof.
  destruct b as [b|]; simpl; [|split; discriminate].
  rewrite negb_false_iff, String.eqb_eq. split; congruence.
Qed.

(** ** Laws of the handler monad *)

Lemma bind_ret {A B} (a : A) (f : A -> Run B) : bind (ret a) f = f a.
Proof. unfold bind, ret. now destruct (f a). Qed.

Lemma bind_lift_return {A B} (a : A) (f : A -> Run B) :
  bind (lift (Return a)) f = f a.
Proof. apply bind_ret. Qed.

Lemma bind_lift_raise {A B} (e : exn) (f : A -> Run B) :
  bind (lift (Raise e)) f = raise e.
Proof. reflexivity. Qed.

Lemma bind_call_return {A B} (ev : Event) (a : A) (f : A -> Run B) :
  bind (call ev (Return a)) f = (ev :: trace (f a), outcome (f a)).
Proof. unfold bind, call, trace, outcome. now destruct (f a). Qed.

Lemma bind_call_raise {A B} (ev : Event) (e : exn) (f : A -> Run B) :
  bind (call ev (Raise e)) f = ([ev], Raise e).
Proof. reflexivity. Qed.

(** Unfolds the monad and splits on every collaborator outcome in sight. *)
Ltac run_cases :=
  unfold try_except, bind, call, ret, raise_new, lift, raise,
    HTTPException_init, trace, outcome;
  repeat match goal with
         | |- context [match ?r with Return _ => _ | Raise _ => _ end] =>
             is_var r; destruct r
         | |- context [match ?f ?x with Return _ => _ | Raise _ => _ end] =>
             destruct (f x)
         end;
  cbn [fst snd app].

(** ** List comprehensions *)

Lemma comprehension_all {A B} (f : A -> Result B) (xs : list A) (ys : list B) :
  Forall2 (fun x y => f x = Return y) xs ys ->
  comprehension f xs = Return ys.
Proof.
  induction 1 as [|x y xs ys Hx _ IH]; simpl; [reflexivity|].
  now rewrite Hx, IH.
Qed.

Lemma comprehension_Return {A B} (f : A -> Result B) (xs : list A) (ys : list B) :
  comprehension f xs = Return ys ->
  Forall2 (fun x y => f x = Return y) xs ys.
Proof.
  revert ys. induction xs as [|x xs IH]; simpl; intros ys H.
  - injection H as <-. constructor.
  - destruct (f x) as [y|e] eqn:Hx; [|discriminate].
    destruct (comprehension f xs) as [ys'|e]; [|discriminate].
    injection H as <-. constructor; auto.
Qed.

(** One element on which [f] raises makes the whole comprehension raise,
    with the exception of some element of the list. *)
Lemma comprehension_some_raise {A B} (f : A -> Result B) (xs : list A) (x : A) (e : exn) :
  In x xs -> f x = Raise e ->
  exists x' e', In x' xs /\ f x' = Raise e' /\ comprehension f xs = Raise e'.
Proof.
  induction xs as [|a xs IH]; simpl; [tauto|]. intros Hin Hx.
  destruct (f a) as [b|ea] eqn:Ha.
  - destruct Hin as [->|Hin]; [congruence|].
    destruct (IH Hin Hx) as [x' [e' [Hin' [Hx' Hc]]]].
    exists x', e'. rewrite Hc. auto.
  - exists a, ea. auto.
Qed.

Lemma nonempty_spec (line : ustring) : nonempty line = true <-> line <> [].
Proof. destruct line; simpl; split; congruence. Qed.

(** ** The shared-secret guard *)

Module GuardSpec.

Lemma get_secret_key_admits (rest : string) :
  get_secret_key (Some rest) ("Bearer " +:+ rest) = ([], Return rest).
Proof.
  unfold get_secret_key. cbv zeta.
  rewrite (startswith_app "Bearer " rest), (slice_from_app "Bearer " rest).
  cbn [negb str_ne]. now rewrite String.eqb_refl.
Qed.

Lemma get_secret_key_cases (secret : option string) (auth : string) :
  get_secret_key secret auth = ([], Raise unauthorized)
  \/ exists rest, auth = "Bearer " +:+ rest /\ secret = Some rest.
Proof.
  unfold get_secret_key.
  destruct (startswith auth "Bearer ") eqn:Hp; [|now left].
  apply startswith_split in Hp.
  destruct (str_ne _ secret) eqn:Hs; [now left|].
  apply str_ne_false in Hs. right. eauto.
Qed.

(** C8: the guard ends in the 401 [Unauthorized] exception exactly when the
    header is not the literal prefix ["Bearer "] followed by the process
    secret; when it is, the guard returns the part after the prefix. *)
Theorem get_secret_key_unauthorized_iff (secret : option string) (auth : string) :
  (get_secret_key secret auth = ([], Raise unauthorized)
     <-> ~ exists rest, auth = "Bearer " +:+ rest /\ secret = Some rest)
  /\ (forall rest, auth = "Bearer " +:+ rest -> secret = Some rest ->
        get_secret_key secret auth = ([], Return rest)).
Proof.
  split; [split|].
  - intros H [rest [-> ->]]. rewrite get_secret_key_admits in H. discriminate.
  - intros H. destruct (get_secret_key_cases secret auth) as [|Hex]; [assumption|].
    contradiction.
  - intros rest -> ->. apply get_secret_key_admits.
Qed.

End GuardSpec.

(** ** The chat dispatcher *)

Module ChatSpec.

Lemma registered_in_dom (reg : gmap string ModelEntry) (name : string) (e : ModelEntry) :
  reg !! name = Some e -> bool_decide (name ∈ dom reg) = true.
Proof. intros H. apply bool_decide_eq_true. apply elem_of_dom. eauto. Qed.

(** The body of [chat] once the registry lookup has succeeded. *)
Lemma chat_registered (w : World) (cm : ChatMessages) (e : ModelEntry) :
  loaded_models w !! selected_model cm = Some e ->
  chat w cm =
    try_except
      (let* generated_text :=
         (if String.eqb (selected_model cm) "microsoft/phi-1_5" then
            call (CallGenerateTextPhi (entry_model e) (entry_tokenizer e) (question cm))
                 (generate_text_phi1_5 w (entry_model e) (entry_tokenizer e) (question cm))
          else
            let* prompt :=
              call (CallCreatePrompt (models w) (selected_model cm) (chat_history cm))
                   (create_prompt w (models w) (selected_model cm) (chat_history cm)) in
            call (CallGenerateTextPipeline (entry_model e) (entry_tokenizer e) prompt)
                 (generate_text_pipeline w (entry_model e) (entry_tokenizer e) prompt)) in
       ret [("success", VBool true); ("message", generated_text)])
      (fun e => raise_new (HTTPException_init (Some 500) (exc_str e))).
Proof.
  intros H. unfold chat. cbv zeta.
  rewrite (registered_in_dom _ _ _ H). unfold registry_getitem. rewrite H.
  cbn [negb rmap]. now rewrite !bind_lift_return.
Qed.

(** C4: a request whose selected model is not a key of the registry ends
    in the 400 exception with detail "Invalid model name", and the run
    calls no collaborator at all, so no generation routine. *)
Theorem chat_unknown_model (w : World) (cm : ChatMessages) :
  selected_model cm ∉ dom (loaded_models w) ->
  chat w cm = ([], Raise invalid_model_name)
  /\ existsb is_generation_call (trace (chat w cm)) = false.
Proof.
  intros H.
  assert (Hc : chat w cm = ([], Raise invalid_model_name)).
  { unfold chat. cbv zeta. now rewrite (bool_decide_eq_false_2 _ H). }
  split; [exact Hc|]. now rewrite Hc.
Qed.

Lemma chat_unknown_model_witness :
  chat Sample.world (Sample.ask "not-a-model" None) = ([], Raise invalid_model_name)
  /\ existsb is_generation_call
       (trace (chat Sample.world (Sample.ask "not-a-model" None))) = false.
Proof.
  apply (chat_unknown_model Sample.world (Sample.ask "not-a-model" None)).
  apply not_elem_of_dom. reflexivity.
Defined.

(** C5, as the code has it: for a registered model the path is chosen by
    comparing the identifier with "microsoft/phi-1_5" on each request.
    The direct path makes one call, the phi generation routine on the
    request's question; the templated path calls [create_prompt] on the
    model list, the identifier and the whole history in order, and then
    the pipeline generation routine on the prompt it returned. *)
Theorem chat_variant_by_identifier (w : World) (cm : ChatMessages) (e : ModelEntry) :
  loaded_models w !! selected_model cm = Some e ->
  variant_taken (trace (chat w cm)) =
    Some (if String.eqb (selected_model cm) "microsoft/phi-1_5"
          then DirectQuestion else TemplatedHistory)
  /\ trace (chat w cm) =
       if String.eqb (selected_model cm) "microsoft/phi-1_5" then
         [CallGenerateTextPhi (entry_model e) (entry_tokenizer e) (question cm)]
       else
         CallCreatePrompt (models w) (selected_model cm) (chat_history cm)
         :: match create_prompt w (models w) (selected_model cm) (chat_history cm) with
            | Return prompt =>
                [CallGenerateTextPipeline (entry_model e) (entry_tokenizer e) prompt]
            | Raise _ => []
            end.
Proof.
  intros H. rewrite (chat_registered w cm e H).
  destruct (String.eqb (selected_model cm) "microsoft/phi-1_5").
  all: run_cases; split; reflexivity.
Qed.

Lemma chat_variant_by_identifier_witness :
  variant_taken
    (trace (chat Sample.world (Sample.ask "mistralai/Mistral-7B-Instruct-v0.1" None)))
  = Some TemplatedHistory
  /\ variant_taken
       (trace (chat Sample.world (Sample.ask "microsoft/phi-1_5" (Some "2+2?"))))
     = Some DirectQuestion.
Proof.
  split.
  - apply (chat_variant_by_identifier Sample.world
             (Sample.ask "mistralai/Mistral-7B-Instruct-v0.1" None) Sample.phi).
    reflexivity.
  - apply (chat_variant_by_identifier Sample.world
             (Sample.ask "microsoft/phi-1_5" (Some "2+2?")) Sample.phi).
    reflexivity.
Defined.

(** C5, as stated, fails: no tag carried by the registry entry decides the
    path.  In the sample registry two identifiers hold the very same
    entry, and the two requests are routed to different paths. *)
Lemma chat_variant_not_a_registry_tag :
  loaded_models Sample.world !! "microsoft/phi-1_5" = Some Sample.phi
  /\ loaded_models Sample.world !! "mistralai/Mistral-7B-Instruct-v0.1" = Some Sample.phi
  /\ variant_taken (trace (chat Sample.world (Sample.ask "microsoft/phi-1_5" None)))
     = Some DirectQuestion
  /\ variant_taken
       (trace (chat Sample.world (Sample.ask "mistralai/Mistral-7B-Instruct-v0.1" None)))
     = Some TemplatedHistory
  /\ ~ exists tag : ModelEntry -> Variant,
        forall (w : World) (cm : ChatMessages) (e : ModelEntry),
          loaded_models w !! selected_model cm = Some e ->
          variant_taken (trace (chat w cm)) = Some (tag e).
Proof.
  repeat (split; [reflexivity|]).
  intros [tag H].
  pose proof (H Sample.world (Sample.ask "microsoft/phi-1_5" None)
                Sample.phi eq_refl) as H1.
  pose proof (H Sample.world (Sample.ask "mistralai/Mistral-7B-Instruct-v0.1" None)
                Sample.phi eq_refl) as H2.
  vm_compute in H1, H2. congruence.
Qed.

(** C6, as the code has it: on the direct path an absent question is not
    checked for.  The phi generation routine is called once with [None];
    its text is returned on success, and a failure it raises becomes the
    500 exception carrying its message. *)
Theorem chat_absent_question_forwarded (w : World) (cm : ChatMessages) (e : ModelEntry) :
  loaded_models w !! selected_model cm = Some e ->
  selected_model cm = "microsoft/phi-1_5" ->
  question cm = None ->
  trace (chat w cm) = [CallGenerateTextPhi (entry_model e) (entry_tokenizer e) None]
  /\ outcome (chat w cm) =
       match generate_text_phi1_5 w (entry_model e) (entry_tokenizer e) None with
       | Return text => Return [("success", VBool true); ("message", text)]
       | Raise err => Raise (HTTPException 500 (exc_str err))
       end.
Proof.
  intros H Hname Hq. rewrite (chat_registered w cm e H), Hname, Hq.
  cbn [String.eqb Ascii.eqb Bool.eqb]. run_cases. all: split; reflexivity.
Qed.

Lemma chat_absent_question_forwarded_witness :
  trace (chat Sample.world (Sample.ask "microsoft/phi-1_5" None))
  = [CallGenerateTextPhi (VObject 0) (VObject 1) None]
  /\ outcome (chat Sample.world (Sample.ask "microsoft/phi-1_5" None))
     = Return [("success", VBool true); ("message", VStr "4")].
Proof.
  apply (chat_absent_question_forwarded Sample.world
           (Sample.ask "microsoft/phi-1_5" None) Sample.phi);
    reflexivity.
Defined.

(** C6, as stated, fails: with the question absent the request to
    "microsoft/phi-1_5" is not refused, and the generation routine runs. *)
Lemma chat_absent_question_not_refused :
  question (Sample.ask "microsoft/phi-1_5" None) = None
  /\ ~ fails_with_client_error (chat Sample.world (Sample.ask "microsoft/phi-1_5" None))
  /\ existsb is_generation_call
       (trace (chat Sample.world (Sample.ask "microsoft/phi-1_5" None))) = true.
Proof.
  split; [reflexivity|]. split; [|reflexivity].
  intros [detail H]. vm_compute in H. discriminate.
Qed.

(** The chat half of C7: a failure raised under the [try] of [chat], by
    either generation routine, leaves the handler as the 500 exception
    carrying its message, after exactly the calls made up to it. *)
Lemma chat_generation_failure_reported (w : World) (cm : ChatMessages)
    (e : ModelEntry) (err : exn) :
  loaded_models w !! selected_model cm = Some e ->
  (selected_model cm = "microsoft/phi-1_5" /\
   generate_text_phi1_5 w (entry_model e) (entry_tokenizer e) (question cm) = Raise err)
  \/ (selected_model cm <> "microsoft/phi-1_5" /\
      exists prompt,
        create_prompt w (models w) (selected_model cm) (chat_history cm) = Return prompt /\
        generate_text_pipeline w (entry_model e) (entry_tokenizer e) prompt = Raise err) ->
  outcome (chat w cm) = Raise (HTTPException 500 (exc_str err))
  /\ length (List.filter is_generation_call (trace (chat w cm))) = 1%nat.
Proof.
  intros H [[Hname Hg]|[Hname [prompt [Hp Hg]]]]; rewrite (chat_registered w cm e H).
  - rewrite Hname. cbn [String.eqb Ascii.eqb Bool.eqb]. now rewrite Hg.
  - apply String.eqb_neq in Hname. rewrite Hname.
    unfold try_except, bind, call. now rewrite Hp, Hg.
Qed.

End ChatSpec.

(** ** The OpenAI fine-tuning endpoint *)

Module FinetuneSpec.

Lemma finetune_unparsed (w : World) file m s n (e : exn) :
  parsed_records w file = Raise e ->
  finetune w file m s n = ([], Raise e).
Proof.
  unfold parsed_records, finetune. intros Hp.
  destruct (decode file) as [text|e']; [|injection Hp as ->; reflexivity].
  rewrite bind_lift_return, Hp. reflexivity.
Qed.

(** After parsing, the handler is the two validator calls followed by the
    branch on their collections. *)
Lemma finetune_rejected (w : World) file m s n recs (d1 d2 : PyDict) :
  parsed_records w file = Return recs ->
  validate_data_format w recs = Return d1 ->
  validate_messages w recs = Return d2 ->
  d1 <> [] \/ d2 <> [] ->
  finetune w file m s n =
    ([CallValidateDataFormat recs; CallValidateMessages recs],
     Raise (UnboundLocalError "fine_tuning_job_id")).
Proof.
  unfold parsed_records, finetune. intros Hp H1 H2 Hne.
  destruct (decode file) as [text|e]; [|discriminate].
  rewrite bind_lift_return, Hp, bind_lift_return.
  rewrite H1, bind_call_return, H2, bind_call_return.
  destruct d1, d2; try reflexivity. destruct Hne; congruence.
Qed.

Lemma finetune_format_validator_raises (w : World) file m s n recs (e : exn) :
  parsed_records w file = Return recs ->
  validate_data_format w recs = Raise e ->
  finetune w file m s n = ([CallValidateDataFormat recs], Raise e).
Proof.
  unfold parsed_records, finetune. intros Hp H1.
  destruct (decode file) as [text|e']; [|discriminate].
  now rewrite bind_lift_return, Hp, bind_lift_return, H1.
Qed.

Lemma finetune_messages_validator_raises (w : World) file m s n recs d1 (e : exn) :
  parsed_records w file = Return recs ->
  validate_data_format w recs = Return d1 ->
  validate_messages w recs = Raise e ->
  finetune w file m s n =
    ([CallValidateDataFormat recs; CallValidateMessages recs], Raise e).
Proof.
  unfold parsed_records, finetune. intros Hp H1 H2.
  destruct (decode file) as [text|e']; [|discriminate].
  now rewrite bind_lift_return, Hp, bind_lift_return, H1, bind_call_return, H2.
Qed.

(** The handler past validation: the two validator calls, then the
    submission block under its [try]. *)
Lemma finetune_accepted (w : World) file m s n recs :
  parsed_records w file = Return recs ->
  validate_data_format w recs = Return [] ->
  validate_messages w recs = Return [] ->
  finetune w file m s n =
    (CallValidateDataFormat recs :: CallValidateMessages recs
       :: trace (submission_block w file m (default finetune_suffix_default (VStr <$> s)) n),
     outcome (submission_block w file m (default finetune_suffix_default (VStr <$> s)) n)).
Proof.
  unfold parsed_records, finetune. intros Hp H1 H2.
  destruct (decode file) as [text|e]; [|discriminate].
  rewrite bind_lift_return, Hp, bind_lift_return.
  rewrite H1, bind_call_return, H2, bind_call_return.
  reflexivity.
Qed.

Lemma finetune_accepted_trace (w : World) file m s n recs :
  parsed_records w file = Return recs ->
  validate_data_format w recs = Return [] ->
  validate_messages w recs = Return [] ->
  trace (finetune w file m s n) =
    CallValidateDataFormat recs :: CallValidateMessages recs
      :: trace (submission_block w file m (default finetune_suffix_default (VStr <$> s)) n).
Proof. intros Hp H1 H2. now rewrite (finetune_accepted w file m s n recs Hp H1 H2). Qed.

Lemma finetune_accepted_outcome (w : World) file m s n recs :
  parsed_records w file = Return recs ->
  validate_data_format w recs = Return [] ->
  validate_messages w recs = Return [] ->
  outcome (finetune w file m s n) =
    outcome (submission_block w file m (default finetune_suffix_default (VStr <$> s)) n).
Proof. intros Hp H1 H2. now rewrite (finetune_accepted w file m s n recs Hp H1 H2). Qed.

(** The calls of the submission block: the upload, then the job submission
    if the upload returned an object with an [id]. *)
Lemma submission_block_trace (w : World) file m (suffix : PyVal) n :
  trace (submission_block w file m suffix n) =
    CallUploadTrainingFile file
    :: match upload_training_file w file with
       | Return up =>
           match getitem up "id" with
           | Return file_id => [CallFineTuneOpenaiModel file_id m suffix n]
           | Raise _ => []
           end
       | Raise _ => []
       end.
Proof.
  unfold submission_block.
  destruct (upload_training_file w file) as [up|e]; [|reflexivity]. cbn.
  destruct (getitem up "id") as [file_id|e]; [|reflexivity]. cbn.
  destruct (fine_tune_openai_model w file_id m suffix n) as [res|e]; [|reflexivity].
  cbn. now destruct (getitem res "id").
Qed.

(** C1: if the log of a submission holds a call to the provider (the
    file upload or the job submission), then the upload parsed and both
    validators returned an empty collection over the parsed records. *)
Theorem finetune_provider_only_after_validation (w : World) file m s n :
  existsb is_provider_call (trace (finetune w file m s n)) = true ->
  exists recs,
    parsed_records w file = Return recs
    /\ validate_data_format w recs = Return []
    /\ validate_messages w recs = Return [].
Proof.
  destruct (parsed_records w file) as [recs|e] eqn:Hp.
  2:{ rewrite (finetune_unparsed _ _ _ _ _ _ Hp). discriminate. }
  intros Hcall. exists recs. split; [reflexivity|].
  destruct (validate_data_format w recs) as [d1|e1] eqn:H1.
  2:{ rewrite (finetune_format_validator_raises _ _ m s n _ _ Hp H1) in Hcall.
      discriminate. }
  destruct (validate_messages w recs) as [d2|e2] eqn:H2.
  2:{ rewrite (finetune_messages_validator_raises _ _ m s n _ _ _ Hp H1 H2) in Hcall.
      discriminate. }
  destruct d1 as [|x d1].
  - destruct d2 as [|y d2]; [auto|].
    rewrite (finetune_rejected w file m s n recs [] (y :: d2)) in Hcall;
      auto; discriminate.
  - rewrite (finetune_rejected w file m s n recs (x :: d1) d2) in Hcall;
      auto; discriminate.
Qed.

Lemma finetune_provider_only_after_validation_witness :
  exists recs,
    parsed_records Sample.world Sample.good_file = Return recs
    /\ validate_data_format Sample.world recs = Return []
    /\ validate_messages Sample.world recs = Return [].
Proof.
  apply (finetune_provider_only_after_validation
           Sample.world Sample.good_file "gpt-3.5-turbo" None 3).
  vm_compute. reflexivity.
Defined.

(** The short-circuit, read the other way: a collection that is not empty
    leaves no provider call in the log. *)
Lemma finetune_rejected_no_provider_call (w : World) file m s n recs (d1 d2 : PyDict) :
  parsed_records w file = Return recs ->
  validate_data_format w recs = Return d1 ->
  validate_messages w recs = Return d2 ->
  d1 <> [] \/ d2 <> [] ->
  existsb is_provider_call (trace (finetune w file m s n)) = false.
Proof.
  intros Hp H1 H2 Hne.
  now rewrite (finetune_rejected w file m s n recs d1 d2 Hp H1 H2 Hne).
Qed.

(** C2, what the code does: a submission rejected by validation gets no
    response at all.  Building the response reads the local
    [fine_tuning_job_id], which only the submission block binds, so the
    handler ends in [UnboundLocalError] after the two validator calls. *)
Theorem finetune_rejection_reads_unbound_job_id (w : World) file m s n recs (d1 d2 : PyDict) :
  parsed_records w file = Return recs ->
  validate_data_format w recs = Return d1 ->
  validate_messages w recs = Return d2 ->
  d1 <> [] \/ d2 <> [] ->
  outcome (finetune w file m s n) = Raise (UnboundLocalError "fine_tuning_job_id")
  /\ trace (finetune w file m s n) =
       [CallValidateDataFormat recs; CallValidateMessages recs].
Proof.
  intros Hp H1 H2 Hne.
  now rewrite (finetune_rejected w file m s n recs d1 d2 Hp H1 H2 Hne).
Qed.

Lemma finetune_rejection_reads_unbound_job_id_witness :
  outcome (finetune Sample.world Sample.bad_shape_file "gpt-3.5-turbo" None 3)
  = Raise (UnboundLocalError "fine_tuning_job_id")
  /\ trace (finetune Sample.world Sample.bad_shape_file "gpt-3.5-turbo" None 3)
     = [CallValidateDataFormat [Sample.bad_shape_record];
        CallValidateMessages [Sample.bad_shape_record]].
Proof.
  apply (finetune_rejection_reads_unbound_job_id
           Sample.world Sample.bad_shape_file "gpt-3.5-turbo" None 3
           [Sample.bad_shape_record]
           [("missing_messages_list", VInt 1)] []).
  - vm_compute. reflexivity.
  - vm_compute. reflexivity.
  - reflexivity.
  - left. discriminate.
Defined.

(** C3, what the code does: when a validator reports errors the handler
    returns no envelope, neither [success: False] with the collections
    nor any other value. *)
Theorem finetune_rejection_returns_nothing (w : World) file m s n recs (d1 d2 : PyDict) :
  parsed_records w file = Return recs ->
  validate_data_format w recs = Return d1 ->
  validate_messages w recs = Return d2 ->
  d1 <> [] \/ d2 <> [] ->
  forall response : PyDict, outcome (finetune w file m s n) <> Return response.
Proof.
  intros Hp H1 H2 Hne response.
  rewrite (finetune_rejected w file m s n recs d1 d2 Hp H1 H2 Hne).
  discriminate.
Qed.

Lemma finetune_rejection_returns_nothing_witness :
  validate_data_format Sample.world [Sample.bad_shape_record]
  = Return [("missing_messages_list", VInt 1)]
  /\ forall response : PyDict,
       outcome (finetune Sample.world Sample.bad_shape_file "gpt-3.5-turbo" None 3)
       <> Return response.
Proof.
  split; [reflexivity|].
  apply (finetune_rejection_returns_nothing
           Sample.world Sample.bad_shape_file "gpt-3.5-turbo" None 3
           [Sample.bad_shape_record]
           [("missing_messages_list", VInt 1)] []).
  - vm_compute. reflexivity.
  - vm_compute. reflexivity.
  - reflexivity.
  - left. discriminate.
Defined.

(** C7, what the code does on the fine-tuning path: when the upload or
    the job submission raises, the [except] clause builds its
    [HTTPException] without a status code, so the handler ends in the
    [TypeError] of that constructor call; no [HTTPException] leaves it and
    the failure's message is not carried. *)
Theorem finetune_provider_failure_unreported (w : World) file m (s : option string) n
    recs (err : exn) :
  parsed_records w file = Return recs ->
  validate_data_format w recs = Return [] ->
  validate_messages w recs = Return [] ->
  upload_training_file w file = Raise err
  \/ (exists up file_id,
        upload_training_file w file = Return up
        /\ getitem up "id" = Return file_id
        /\ fine_tune_openai_model w file_id m
             (default finetune_suffix_default (VStr <$> s)) n = Raise err) ->
  outcome (finetune w file m s n) = Raise missing_status_code
  /\ (forall status detail,
        outcome (finetune w file m s n) <> Raise (HTTPException status detail))
  /\ trace (finetune w file m s n) =
       CallValidateDataFormat recs :: CallValidateMessages recs
       :: CallUploadTrainingFile file
       :: match upload_training_file w file with
          | Return up =>
              match getitem up "id" with
              | Return file_id =>
                  [CallFineTuneOpenaiModel file_id m
                     (default finetune_suffix_default (VStr <$> s)) n]
              | Raise _ => []
              end
          | Raise _ => []
          end.
Proof.
  intros Hp H1 H2 Hfail.
  rewrite (finetune_accepted_trace w file m s n recs Hp H1 H2).
  rewrite (finetune_accepted_outcome w file m s n recs Hp H1 H2).
  rewrite submission_block_trace.
  assert (Hout : outcome (submission_block w file m
                            (default finetune_suffix_default (VStr <$> s)) n)
                 = Raise missing_status_code).
  { unfold submission_block.
    destruct Hfail as [Hup|[up [file_id [Hup [Hid Hft]]]]]; rewrite Hup.
    - reflexivity.
    - cbn. rewrite Hid. cbn. now rewrite Hft. }
  rewrite Hout. split; [reflexivity|]. split; [discriminate|reflexivity].
Qed.

Lemma finetune_provider_failure_unreported_witness :
  outcome (finetune Sample.offline_world Sample.good_file "gpt-3.5-turbo" None 3)
  = Raise missing_status_code.
Proof.
  apply (finetune_provider_failure_unreported
           Sample.offline_world Sample.good_file "gpt-3.5-turbo" None 3
           [Sample.good_record] Sample.connection_error).
  - vm_compute. reflexivity.
  - reflexivity.
  - reflexivity.
  - left. reflexivity.
Defined.

(** C9: when the request gives no [suffix], the parameter is bound to its
    declared default, the typing construct [Optional[str]], which is
    neither [None] nor a string; on the path where validation passes and
    the upload returns a file id, the job submission is called with that
    object as its suffix argument. *)
Theorem finetune_default_suffix_forwarded (w : World) file m n recs up file_id :
  parsed_records w file = Return recs ->
  validate_data_format w recs = Return [] ->
  validate_messages w recs = Return [] ->
  upload_training_file w file = Return up ->
  getitem up "id" = Return file_id ->
  trace (finetune w file m None n) =
    [CallValidateDataFormat recs; CallValidateMessages recs;
     CallUploadTrainingFile file;
     CallFineTuneOpenaiModel file_id m finetune_suffix_default n]
  /\ finetune_suffix_default = VTyping "typing.Optional[str]"
  /\ finetune_suffix_default <> VNone
  /\ (forall str, finetune_suffix_default <> VStr str).
Proof.
  intros Hp H1 H2 Hup Hid.
  rewrite (finetune_accepted_trace w file m None n recs Hp H1 H2).
  rewrite submission_block_trace, Hup, Hid.
  split; [reflexivity|]. split; [reflexivity|]. split; discriminate.
Qed.

Lemma finetune_default_suffix_forwarded_witness :
  trace (finetune Sample.world Sample.good_file "gpt-3.5-turbo" None 3) =
    [CallValidateDataFormat [Sample.good_record];
     CallValidateMessages [Sample.good_record];
     CallUploadTrainingFile Sample.good_file;
     CallFineTuneOpenaiModel (VStr "file-abc123") "gpt-3.5-turbo"
       finetune_suffix_default 3].
Proof.
  apply (finetune_default_suffix_forwarded
           Sample.world Sample.good_file "gpt-3.5-turbo" 3
           [Sample.good_record] [("id", VStr "file-abc123")] (VStr "file-abc123")).
  - vm_compute. reflexivity.
  - reflexivity.
  - reflexivity.
  - reflexivity.
  - reflexivity.
Defined.

(** C10: once the upload decodes, a line that is not empty and that
    [json.loads] rejects makes the handler raise that parser's exception
    with an empty log, so before either validator is called and without
    any envelope returned.  When instead every non-empty line parses, the
    first call is the format validator on exactly the parsed non-empty
    lines, in order, and every validator call in the log is given that
    same list: empty lines contribute nothing. *)
Theorem finetune_unparsable_line_raises (w : World) file m s n (text : ustring) :
  decode file = Return text ->
  ((exists line err,
      In line (splitlines text) /\ line <> [] /\ json_loads w line = Raise err) ->
   exists line err,
     In line (splitlines text) /\ line <> [] /\ json_loads w line = Raise err
     /\ finetune w file m s n = ([], Raise err))
  /\ (forall recs,
        Forall2 (fun line rec => json_loads w line = Return rec)
                (List.filter nonempty (splitlines text)) recs ->
        (exists rest,
           trace (finetune w file m s n) = CallValidateDataFormat recs :: rest)
        /\ (forall ev recs',
              In ev (trace (finetune w file m s n)) ->
              validated_records ev = Some recs' -> recs' = recs)).
Proof.
  intros Hd. split.
  - intros [line [err [Hin [Hne Hj]]]].
    assert (Hin' : In line (List.filter nonempty (splitlines text))).
    { apply filter_In. split; [exact Hin|]. now apply nonempty_spec. }
    destruct (comprehension_some_raise _ _ _ _ Hin' Hj)
      as [line' [err' [Hl [Hj' Hc]]]].
    apply filter_In in Hl. destruct Hl as [Hl Hne'].
    exists line', err'. repeat split; auto.
    + now apply nonempty_spec.
    + apply finetune_unparsed. unfold parsed_records. now rewrite Hd.
  - intros recs Hall. apply comprehension_all in Hall.
    assert (Hp : parsed_records w file = Return recs).
    { unfold parsed_records. now rewrite Hd. }
    assert (Hcases :
      exists rest, trace (finetune w file m s n)
                   = CallValidateDataFormat recs :: rest
        /\ (rest = [] \/ exists rest',
              rest = CallValidateMessages recs :: rest'
              /\ Forall (fun ev => validated_records ev = None) rest')).
    { destruct (validate_data_format w recs) as [d1|e1] eqn:H1.
      2:{ rewrite (finetune_format_validator_raises _ _ m s n _ _ Hp H1). eauto. }
      destruct (validate_messages w recs) as [d2|e2] eqn:H2.
      2:{ rewrite (finetune_messages_validator_raises _ _ m s n _ _ _ Hp H1 H2).
          eauto 6. }
      assert (Hd12 : (d1 = [] /\ d2 = []) \/ (d1 <> [] \/ d2 <> [])).
      { destruct d1, d2; auto; right; (left + right); discriminate. }
      destruct Hd12 as [[-> ->]|Hne].
      - rewrite (finetune_accepted_trace w file m s n recs Hp H1 H2).
        rewrite submission_block_trace.
        eexists. split; [reflexivity|]. right. eexists. split; [reflexivity|].
        constructor; [reflexivity|].
        destruct (upload_training_file w file) as [up|e]; [|constructor].
        destruct (getitem up "id"); repeat constructor.
      - rewrite (finetune_rejected w file m s n recs d1 d2 Hp H1 H2 Hne). eauto 6. }
    destruct Hcases as [rest [Ht Hrest]]. rewrite Ht.
    split; [eauto|]. intros ev recs' Hin Hv.
    destruct Hin as [<-|Hin]; [cbn in Hv; congruence|].
    destruct Hrest as [->|[rest' [-> Hall']]]; [contradiction|].
    destruct Hin as [<-|Hin]; [cbn in Hv; congruence|].
    rewrite Forall_forall in Hall'. apply list_elem_of_In in Hin.
    specialize (Hall' ev Hin). congruence.
Qed.

Lemma finetune_unparsable_line_raises_witness :
  (exists line err,
     In line (splitlines (Sample.ustring_of
                (Sample.good_line +:+ Sample.newline +:+ Sample.newline
                 +:+ "not json" +:+ Sample.newline)))
     /\ line <> [] /\ json_loads Sample.world line = Raise err
     /\ finetune Sample.world Sample.broken_file "gpt-3.5-turbo" None 3
        = ([], Raise err))
  /\ forall ev recs',
       In ev (trace (finetune Sample.world Sample.spaced_file "gpt-3.5-turbo" None 3)) ->
       validated_records ev = Some recs' ->
       recs' = [Sample.good_record; Sample.good_record].
Proof.
  split.
  - apply (finetune_unparsable_line_raises
             Sample.world Sample.broken_file "gpt-3.5-turbo" None 3
             (Sample.ustring_of
                (Sample.good_line +:+ Sample.newline +:+ Sample.newline
                 +:+ "not json" +:+ Sample.newline))).
    + vm_compute. reflexivity.
    + exists (Sample.ustring_of "not json"),
        (JSONDecodeError "Expecting value: line 1 column 1 (char 0)").
      split; [vm_compute; tauto|]. split; [discriminate|]. vm_compute. reflexivity.
  - apply (finetune_unparsable_line_raises
             Sample.world Sample.spaced_file "gpt-3.5-turbo" None 3
             (Sample.ustring_of
                (Sample.good_line +:+ Sample.newline +:+ Sample.newline
                 +:+ Sample.good_line +:+ Sample.newline))).
    + vm_compute. reflexivity.
    + vm_compute. repeat constructor.
Defined.

End FinetuneSpec.

(** * Further properties of the handlers *)

(** ** The guard and the routes *)

Module RouteSpec.

(** X1: with [SECRET_KEY] unset in the environment the guard refuses every
    header, whatever it holds. *)
Theorem get_secret_key_unset_refuses_all (auth : string) :
  get_secret_key None auth = ([], Raise unauthorized).
Proof.
  destruct (GuardSpec.get_secret_key_cases None auth) as [H|[rest [_ H]]];
    [exact H|discriminate].
Qed.

Lemma route_refused {A} (secret : option string) (auth : string) (body : Run A) :
  (~ exists rest, auth = "Bearer " +:+ rest /\ secret = Some rest) ->
  (let* secret_key := get_secret_key secret auth in body) = ([], Raise unauthorized).
Proof.
  intros H. destruct (GuardSpec.get_secret_key_cases secret auth) as [Hg|Hex].
  - now rewrite Hg.
  - contradiction.
Qed.

Lemma route_admitted {A} (rest : string) (body : Run A) :
  (let* secret_key := get_secret_key (Some rest) ("Bearer " +:+ rest) in body) = body.
Proof. rewrite GuardSpec.get_secret_key_admits. apply (bind_ret rest). Qed.

(** X2: a request to either guarded route whose header is not the prefix
    followed by the process secret ends in the 401 exception with an empty
    log: the upload is not parsed and no validator, provider or generation
    routine is called. *)
Theorem guarded_routes_refuse (w : World) (auth : string)
    (cm : ChatMessages) file m s n :
  (~ exists rest, auth = "Bearer " +:+ rest /\ SECRET_KEY w = Some rest) ->
  chat_route w auth cm = ([], Raise unauthorized)
  /\ finetune_route w auth file m s n = ([], Raise unauthorized).
Proof.
  intros H. split; unfold chat_route, finetune_route; now apply route_refused.
Qed.

Lemma guarded_routes_refuse_witness :
  chat_route Sample.world "Bearer guess" (Sample.ask "microsoft/phi-1_5" (Some "2+2?"))
  = ([], Raise unauthorized)
  /\ finetune_route Sample.world "Bearer guess" Sample.good_file "gpt-3.5-turbo" None 3
     = ([], Raise unauthorized).
Proof.
  apply (guarded_routes_refuse Sample.world "Bearer guess").
  intros [rest [Ha Hs]]. vm_compute in Hs. injection Hs as <-. discriminate.
Defined.

(** X3: with the right header a guarded route is its handler: same
    outcome, same calls. *)
Theorem guarded_routes_admit (w : World) (secret : string)
    (cm : ChatMessages) file m s n :
  SECRET_KEY w = Some secret ->
  chat_route w ("Bearer " +:+ secret) cm = chat w cm
  /\ finetune_route w ("Bearer " +:+ secret) file m s n = finetune w file m s n.
Proof.
  intros H. unfold chat_route, finetune_route. rewrite H.
  split; apply route_admitted.
Qed.

Lemma guarded_routes_admit_witness :
  chat_route Sample.world "Bearer s3cr3t" (Sample.ask "microsoft/phi-1_5" (Some "2+2?"))
  = chat Sample.world (Sample.ask "microsoft/phi-1_5" (Some "2+2?"))
  /\ finetune_route Sample.world "Bearer s3cr3t" Sample.good_file "gpt-3.5-turbo" None 3
     = finetune Sample.world Sample.good_file "gpt-3.5-turbo" None 3.
Proof.
  apply (guarded_routes_admit Sample.world "s3cr3t"). reflexivity.
Defined.

End RouteSpec.

(** ** More on the chat dispatcher *)

Module ChatMore.

Lemma chat_unregistered (w : World) (cm : ChatMessages) :
  loaded_models w !! selected_model cm = None ->
  chat w cm = ([], Raise invalid_model_name).
Proof.
  intros H. apply not_elem_of_dom in H.
  unfold chat. cbv zeta. now rewrite (bool_decide_eq_false_2 _ H).
Qed.

(** X4: [chat] ends in one of three ways only.  For an unregistered model
    it is the 400 exception; for a registered one it is either the success
    envelope around some text or a 500 exception.  In particular the two
    registry reads after the membership test never raise [KeyError], and no
    exception of a collaborator leaves the handler as it is. *)
Theorem chat_outcome_classified (w : World) (cm : ChatMessages) :
  match loaded_models w !! selected_model cm with
  | None => outcome (chat w cm) = Raise invalid_model_name
  | Some _ =>
      (exists text, outcome (chat w cm) = Return (chat_envelope text))
      \/ (exists msg, outcome (chat w cm) = Raise (HTTPException 500 msg))
  end.
Proof.
  destruct (loaded_models w !! selected_model cm) as [e|] eqn:H.
  - rewrite (ChatSpec.chat_registered w cm e H).
    destruct (String.eqb (selected_model cm) "microsoft/phi-1_5").
    all: run_cases; eauto.
  - now rewrite (chat_unregistered w cm H).
Qed.

(** X5: one request costs at most one generation call and at most two
    calls in all, and [chat] never calls the fine-tuning provider or a
    validator. *)
Theorem chat_call_budget (w : World) (cm : ChatMessages) :
  (length (List.filter is_generation_call (trace (chat w cm))) <= 1)%nat
  /\ (length (trace (chat w cm)) <= 2)%nat
  /\ existsb is_provider_call (trace (chat w cm)) = false
  /\ existsb is_validator_call (trace (chat w cm)) = false.
Proof.
  destruct (loaded_models w !! selected_model cm) as [e|] eqn:H.
  - rewrite (ChatSpec.chat_registered w cm e H).
    destruct (String.eqb (selected_model cm) "microsoft/phi-1_5").
    all: run_cases; cbn; repeat split; lia.
  - rewrite (chat_unregistered w cm H). cbn. repeat split; lia.
Qed.

(** X6: on the direct path the chat history plays no part: two requests
    for "microsoft/phi-1_5" with the same question run identically. *)
Theorem chat_direct_ignores_history (w : World) (cm cm' : ChatMessages) :
  selected_model cm = "microsoft/phi-1_5" ->
  selected_model cm' = "microsoft/phi-1_5" ->
  question cm = question cm' ->
  chat w cm = chat w cm'.
Proof.
  intros Hn Hn' Hq.
  destruct (loaded_models w !! "microsoft/phi-1_5") as [e|] eqn:H.
  - rewrite (ChatSpec.chat_registered w cm e), (ChatSpec.chat_registered w cm' e)
      by (rewrite ?Hn, ?Hn'; exact H).
    now rewrite Hn, Hn', Hq.
  - rewrite (chat_unregistered w cm), (chat_unregistered w cm')
      by (rewrite ?Hn, ?Hn'; exact H).
    reflexivity.
Qed.

Lemma chat_direct_ignores_history_witness :
  chat Sample.world (Sample.ask "microsoft/phi-1_5" (Some "2+2?"))
  = chat Sample.world
      {| selected_model := "microsoft/phi-1_5";
         chat_history := [];
         question := Some "2+2?" |}.
Proof.
  apply (chat_direct_ignores_history Sample.world); reflexivity.
Defined.

(** X7: on the templated path the question field plays no part: two
    requests for the same model other than "microsoft/phi-1_5" with the
    same history run identically. *)
Theorem chat_templated_ignores_question (w : World) (cm cm' : ChatMessages) :
  selected_model cm <> "microsoft/phi-1_5" ->
  selected_model cm' = selected_model cm ->
  chat_history cm' = chat_history cm ->
  chat w cm = chat w cm'.
Proof.
  intros Hn Hn' Hh.
  destruct (loaded_models w !! selected_model cm) as [e|] eqn:H.
  - rewrite (ChatSpec.chat_registered w cm e H).
    rewrite (ChatSpec.chat_registered w cm' e) by (rewrite Hn'; exact H).
    rewrite Hn', Hh. apply String.eqb_neq in Hn. now rewrite Hn.
  - rewrite (chat_unregistered w cm H).
    rewrite (chat_unregistered w cm') by (rewrite Hn'; exact H).
    reflexivity.
Qed.

Lemma chat_templated_ignores_question_witness :
  chat Sample.world (Sample.ask "mistralai/Mistral-7B-Instruct-v0.1" None)
  = chat Sample.world (Sample.ask "mistralai/Mistral-7B-Instruct-v0.1" (Some "2+2?")).
Proof.
  apply (chat_templated_ignores_question Sample.world);
    [discriminate|reflexivity|reflexivity].
Defined.

(** X8: when [create_prompt] raises on the templated path, the handler
    ends in the 500 exception carrying that message and the generation
    routine is not called. *)
Theorem chat_prompt_failure (w : World) (cm : ChatMessages) (e : ModelEntry) (err : exn) :
  loaded_models w !! selected_model cm = Some e ->
  selected_model cm <> "microsoft/phi-1_5" ->
  create_prompt w (models w) (selected_model cm) (chat_history cm) = Raise err ->
  chat w cm =
    ([CallCreatePrompt (models w) (selected_model cm) (chat_history cm)],
     Raise (HTTPException 500 (exc_str err))).
Proof.
  intros H Hn Hp. rewrite (ChatSpec.chat_registered w cm e H).
  apply String.eqb_neq in Hn. rewrite Hn.
  unfold try_except, bind, call. now rewrite Hp.
Qed.

Lemma chat_prompt_failure_witness :
  chat Sample.templateless_world (Sample.ask "mistralai/Mistral-7B-Instruct-v0.1" None)
  = ([CallCreatePrompt (models Sample.world) "mistralai/Mistral-7B-Instruct-v0.1"
        [{| role := "user"; content := "2+2?" |}]],
     Raise (HTTPException 500 "no chat template")).
Proof.
  apply (chat_prompt_failure Sample.templateless_world
           (Sample.ask "mistralai/Mistral-7B-Instruct-v0.1" None) Sample.phi
           (OtherException "ValueError" "no chat template"));
    [reflexivity|discriminate|reflexivity].
Defined.

(** X9: the message of a successful response is the value the generation
    routine returned, unchanged: the phi routine's on the direct path, the
    pipeline's on the prompt [create_prompt] built on the templated path. *)
Theorem chat_success_message (w : World) (cm : ChatMessages) (e : ModelEntry) (text : PyVal) :
  loaded_models w !! selected_model cm = Some e ->
  (selected_model cm = "microsoft/phi-1_5"
   /\ generate_text_phi1_5 w (entry_model e) (entry_tokenizer e) (question cm)
      = Return text)
  \/ (selected_model cm <> "microsoft/phi-1_5"
      /\ exists prompt,
           create_prompt w (models w) (selected_model cm) (chat_history cm)
           = Return prompt
           /\ generate_text_pipeline w (entry_model e) (entry_tokenizer e) prompt
              = Return text) ->
  outcome (chat w cm) = Return (chat_envelope text)
  /\ getitem (chat_envelope text) "message" = Return text.
Proof.
  intros H Hcase. split; [|reflexivity].
  rewrite (ChatSpec.chat_registered w cm e H).
  destruct Hcase as [[Hn Hg]|[Hn [prompt [Hp Hg]]]].
  - rewrite Hn. cbn [String.eqb Ascii.eqb Bool.eqb]. now rewrite Hg.
  - apply String.eqb_neq in Hn. rewrite Hn.
    unfold try_except, bind, call. now rewrite Hp, Hg.
Qed.

Lemma chat_success_message_witness :
  outcome (chat Sample.world (Sample.ask "mistralai/Mistral-7B-Instruct-v0.1" None))
  = Return (chat_envelope (VStr "hello"))
  /\ getitem (chat_envelope (VStr "hello")) "message" = Return (VStr "hello").
Proof.
  apply (chat_success_message Sample.world
           (Sample.ask "mistralai/Mistral-7B-Instruct-v0.1" None) Sample.phi);
    [reflexivity|].
  right. split; [discriminate|].
  exists (VStr "<s>[INST] hi [/INST]"). split; reflexivity.
Defined.

End ChatMore.

(** ** Reading the uploaded file *)

Module ParseSpec.

Lemma unbroken_not_cr (c : Z) : is_linebreak c = false -> (c =? 13) = false.
Proof.
  intros H. destruct (Z.eqb_spec c 13) as [->|]; [discriminate H|reflexivity].
Qed.

(** A line closed by LF is cut off whole. *)
Lemma splitlines_from_lf (line cur rest : ustring) :
  unbroken line ->
  splitlines_from cur (line ++ 10 :: rest)
  = (rev cur ++ line) :: splitlines_from [] rest.
Proof.
  intros Hl. revert cur. induction Hl as [|c line Hc _ IH]; intros cur.
  - cbn. now rewrite app_nil_r.
  - cbn [app splitlines_from]. rewrite (unbroken_not_cr c Hc), Hc, IH.
    cbn [rev]. now rewrite <- app_assoc.
Qed.

(** So is a line closed by CR LF, and the pair counts as one break. *)
Lemma splitlines_from_crlf (line cur rest : ustring) :
  unbroken line ->
  splitlines_from cur (line ++ 13 :: 10 :: rest)
  = (rev cur ++ line) :: splitlines_from [] rest.
Proof.
  intros Hl. revert cur. induction Hl as [|c line Hc _ IH]; intros cur.
  - cbn. now rewrite app_nil_r.
  - cbn [app splitlines_from]. rewrite (unbroken_not_cr c Hc), Hc, IH.
    cbn [rev]. now rewrite <- app_assoc.
Qed.

Lemma splitlines_join (terminator : ustring) (lines : list ustring) :
  terminator = [10] \/ terminator = [13; 10] ->
  Forall unbroken lines ->
  splitlines (join_lines terminator lines) = lines.
Proof.
  intros Ht Hl. unfold splitlines, join_lines.
  induction Hl as [|line lines Hline _ IH]; [reflexivity|].
  cbn [map concat]. rewrite <- app_assoc.
  destruct Ht as [->| ->]; cbn [app].
  - rewrite (splitlines_from_lf line [] _ Hline). cbn [rev app]. now rewrite IH.
  - rewrite (splitlines_from_crlf line [] _ Hline). cbn [rev app]. now rewrite IH.
Qed.

(** X10: an upload whose text is a sequence of lines, each closed by LF
    or each by CR LF, is read line by line: the empty lines are dropped
    and every other line goes to [json.loads] whole and in order.  The two
    line endings give the same records. *)
Theorem parsed_records_line_by_line (w : World) file
    (terminator : ustring) (lines : list ustring) :
  terminator = [10] \/ terminator = [13; 10] ->
  Forall unbroken lines ->
  decode file = Return (join_lines terminator lines) ->
  parsed_records w file
  = comprehension (json_loads w) (List.filter nonempty lines).
Proof.
  intros Ht Hl Hd. unfold parsed_records.
  now rewrite Hd, (splitlines_join terminator lines Ht Hl).
Qed.

Lemma parsed_records_line_by_line_witness :
  parsed_records Sample.world Sample.spaced_file
  = comprehension (json_loads Sample.world)
      (List.filter nonempty
         [Sample.ustring_of Sample.good_line; []; Sample.ustring_of Sample.good_line]).
Proof.
  apply (parsed_records_line_by_line Sample.world Sample.spaced_file [10]
           [Sample.ustring_of Sample.good_line; [];
            Sample.ustring_of Sample.good_line]).
  - left. reflexivity.
  - vm_compute. repeat constructor.
  - vm_compute. reflexivity.
Defined.

Lemma comprehension_first_raise {A B} (f : A -> Result B)
    (good : list A) (bad : A) (rest : list A) (e : exn) :
  Forall (fun x => exists y, f x = Return y) good ->
  f bad = Raise e ->
  comprehension f (good ++ bad :: rest) = Raise e.
Proof.
  intros Hg Hb. induction Hg as [|x good [y Hx] _ IH]; cbn.
  - now rewrite Hb.
  - now rewrite Hx, IH.
Qed.

Lemma filter_nonempty_parsable (f : ustring -> Result PyVal) (lines : list ustring) :
  Forall (fun line => line = [] \/ exists rec, f line = Return rec) lines ->
  Forall (fun line => exists rec, f line = Return rec) (List.filter nonempty lines).
Proof.
  induction 1 as [|line lines [->|Hp] _ IH]; cbn; auto.
  destruct (nonempty line); auto.
Qed.

(** X11: parsing stops at the first line the parser rejects.  When the
    lines before it are empty or parse, the handler raises the exception
    of that line, whatever follows it, and calls nothing. *)
Theorem finetune_first_bad_line (w : World) file m s n
    (terminator : ustring) (good : list ustring) (bad : ustring)
    (rest : list ustring) (e : exn) :
  terminator = [10] \/ terminator = [13; 10] ->
  Forall unbroken (good ++ bad :: rest) ->
  decode file = Return (join_lines terminator (good ++ bad :: rest)) ->
  Forall (fun line => line = [] \/ exists rec, json_loads w line = Return rec) good ->
  bad <> [] ->
  json_loads w bad = Raise e ->
  finetune w file m s n = ([], Raise e).
Proof.
  intros Ht Hl Hd Hgood Hne Hbad.
  apply FinetuneSpec.finetune_unparsed. unfold parsed_records.
  rewrite Hd, (splitlines_join terminator _ Ht Hl), List.filter_app.
  cbn [List.filter]. apply nonempty_spec in Hne. rewrite Hne.
  apply comprehension_first_raise; [|exact Hbad].
  now apply filter_nonempty_parsable.
Qed.

Lemma finetune_first_bad_line_witness :
  finetune Sample.world Sample.broken_file "gpt-3.5-turbo" None 3
  = ([], Raise (JSONDecodeError "Expecting value: line 1 column 1 (char 0)")).
Proof.
  apply (finetune_first_bad_line Sample.world Sample.broken_file
           "gpt-3.5-turbo" None 3 [10]
           [Sample.ustring_of Sample.good_line; []]
           (Sample.ustring_of "not json") []).
  - left. reflexivity.
  - vm_compute. repeat constructor.
  - vm_compute. reflexivity.
  - constructor; [right; eexists; vm_compute; reflexivity|].
    constructor; [left; reflexivity|]. constructor.
  - discriminate.
  - vm_compute. reflexivity.
Defined.

(** A text of line breaks only has only empty lines. *)
Lemma splitlines_from_blank (n : nat) (s : ustring) :
  (length s <= n)%nat ->
  Forall (fun c => is_linebreak c = true) s ->
  Forall (fun line => line = []) (splitlines_from [] s).
Proof.
  revert s. induction n as [|n IH]; intros s Hlen Hs.
  - destruct s; [constructor|cbn in Hlen; lia].
  - destruct Hs as [|c s Hc Hs]; [constructor|]. cbn in Hlen.
    cbn [splitlines_from]. rewrite Hc.
    destruct (c =? 13).
    + destruct Hs as [|c' s Hc' Hs]; [repeat constructor|].
      cbn in Hlen. destruct (c' =? 10).
      * constructor; [reflexivity|]. apply IH; [lia|exact Hs].
      * constructor; [reflexivity|]. apply IH; [cbn; lia|now constructor].
    + constructor; [reflexivity|]. apply IH; [lia|exact Hs].
Qed.

Lemma filter_nonempty_blank (lines : list ustring) :
  Forall (fun line => line = []) lines -> List.filter nonempty lines = [].
Proof. induction 1 as [|line lines -> _ IH]; [reflexivity|exact IH]. Qed.

Lemma finetune_first_call (w : World) file m s n recs :
  parsed_records w file = Return recs ->
  exists rest, trace (finetune w file m s n) = CallValidateDataFormat recs :: rest.
Proof.
  unfold parsed_records, finetune. intros Hp.
  destruct (decode file) as [text|e]; [|discriminate].
  rewrite bind_lift_return, Hp, bind_lift_return.
  destruct (validate_data_format w recs) as [d1|e1].
  - rewrite bind_call_return. cbn. eauto.
  - cbn. eauto.
Qed.

(** X12: an upload with no content, empty or made of line breaks only,
    is not an error: it parses to the empty list of records without the
    parser being consulted, and the format validator is called on that
    empty list. *)
Theorem finetune_blank_upload (w : World) file m s n (text : ustring) :
  decode file = Return text ->
  Forall (fun c => is_linebreak c = true) text ->
  parsed_records w file = Return []
  /\ exists rest, trace (finetune w file m s n) = CallValidateDataFormat [] :: rest.
Proof.
  intros Hd Hb.
  assert (Hp : parsed_records w file = Return []).
  { unfold parsed_records, splitlines. rewrite Hd.
    now rewrite (filter_nonempty_blank _ (splitlines_from_blank _ text (le_n _) Hb)). }
  split; [exact Hp|]. now apply finetune_first_call.
Qed.

Lemma finetune_blank_upload_witness :
  parsed_records Sample.world
    (String.list_byte_of_string (Sample.newline +:+ Sample.newline))
  = Return []
  /\ exists rest,
       trace (finetune Sample.world
                (String.list_byte_of_string (Sample.newline +:+ Sample.newline))
                "gpt-3.5-turbo" None 3)
       = CallValidateDataFormat [] :: rest.
Proof.
  apply (finetune_blank_upload Sample.world _ "gpt-3.5-turbo" None 3 [10; 10]).
  - vm_compute. reflexivity.
  - repeat constructor.
Defined.

(** X22: parsing succeeds exactly when the upload decodes and every
    non-empty line parses; the records are then those of the non-empty
    lines, one for one and in order. *)
Theorem parsed_records_iff (w : World) file (recs : list PyVal) :
  parsed_records w file = Return recs
  <-> exists text,
        decode file = Return text
        /\ Forall2 (fun line rec => json_loads w line = Return rec)
                   (List.filter nonempty (splitlines text)) recs.
Proof.
  unfold parsed_records. split.
  - destruct (decode file) as [text|e]; [|discriminate].
    intros H. exists text. split; [reflexivity|]. now apply comprehension_Return.
  - intros [text [-> H]]. now apply comprehension_all.
Qed.

Ltac to_arith :=
  unfold in_range, never_in_utf8 in *;
  repeat match goal with
         | H : context [if ?c then _ else _] |- _ => destruct c
         | H : _ && _ = true |- _ => apply andb_true_iff in H; destruct H
         | H : _ || _ = true |- _ => apply orb_true_iff in H; destruct H
         | H : (_ <=? _) = true |- _ => apply Z.leb_le in H
         | H : (_ =? _) = true |- _ => apply Z.eqb_eq in H
         end.

(** The decoder accepts no sequence that holds one of the bytes UTF-8
    never uses. *)
Lemma utf8_decode_rejects (n : nat) (bs : list Z) :
  (length bs <= n)%nat ->
  Exists (fun b => never_in_utf8 b = true) bs ->
  utf8_decode bs = None.
Proof.
  revert bs. induction n as [|n IH]; intros bs Hlen Hex.
  - destruct bs; [inversion Hex|cbn in Hlen; lia].
  - destruct bs as [|b0 r0]; [inversion Hex|]. cbn in Hlen.
    cbn [utf8_decode].
    destruct (in_range 0 127 b0) eqn:E0.
    { apply Exists_cons in Hex as [Hb|Hr]; [exfalso; to_arith; lia|].
      rewrite (IH r0); [reflexivity|lia|exact Hr]. }
    destruct (in_range 194 223 b0) eqn:E2.
    { destruct r0 as [|b1 r1]; [reflexivity|]. cbn in Hlen.
      destruct (in_range 128 191 b1) eqn:E21; [|reflexivity].
      apply Exists_cons in Hex as [Hb|Hr]; [exfalso; to_arith; lia|].
      apply Exists_cons in Hr as [Hb|Hr]; [exfalso; to_arith; lia|].
      rewrite (IH r1); [reflexivity|lia|exact Hr]. }
    destruct (in_range 224 239 b0) eqn:E3.
    { destruct r0 as [|b1 [|b2 r2]]; [reflexivity|reflexivity|]. cbn in Hlen.
      match goal with |- (if ?c then _ else _) = _ => destruct c eqn:E31 end;
        [|reflexivity].
      apply Exists_cons in Hex as [Hb|Hr]; [exfalso; to_arith; lia|].
      apply Exists_cons in Hr as [Hb|Hr]; [exfalso; to_arith; lia|].
      apply Exists_cons in Hr as [Hb|Hr]; [exfalso; to_arith; lia|].
      rewrite (IH r2); [reflexivity|lia|exact Hr]. }
    destruct (in_range 240 244 b0) eqn:E4; [|reflexivity].
    destruct r0 as [|b1 [|b2 [|b3 r3]]]; [reflexivity|reflexivity|reflexivity|].
    cbn in Hlen.
    match goal with |- (if ?c then _ else _) = _ => destruct c eqn:E41 end;
      [|reflexivity].
    apply Exists_cons in Hex as [Hb|Hr]; [exfalso; to_arith; lia|].
    apply Exists_cons in Hr as [Hb|Hr]; [exfalso; to_arith; lia|].
    apply Exists_cons in Hr as [Hb|Hr]; [exfalso; to_arith; lia|].
    apply Exists_cons in Hr as [Hb|Hr]; [exfalso; to_arith; lia|].
    rewrite (IH r3); [reflexivity|lia|exact Hr].
Qed.

(** X13: an upload holding a byte that no UTF-8 text contains (0xC0, 0xC1,
    0xF5 to 0xFF) is not read at all: decoding raises
    [UnicodeDecodeError], which leaves the handler as it is, before any
    line is parsed or any collaborator called. *)
Theorem finetune_undecodable_upload (w : World) file m s n :
  Exists (fun b => never_in_utf8 (Z.of_N (Byte.to_N b)) = true) file ->
  exists msg, finetune w file m s n = ([], Raise (UnicodeDecodeError msg)).
Proof.
  intros Hex. eexists. apply FinetuneSpec.finetune_unparsed.
  unfold parsed_records, decode.
  rewrite (utf8_decode_rejects _ _ (le_n _)); [reflexivity|].
  apply Exists_exists in Hex as [b [Hin Hb]].
  apply Exists_exists. exists (Z.of_N (Byte.to_N b)). split; [|exact Hb].
  apply list_elem_of_In. apply list_elem_of_In in Hin.
  now apply (in_map (fun b => Z.of_N (Byte.to_N b))).
Qed.

Lemma finetune_undecodable_upload_witness :
  exists msg,
    finetune Sample.world (Sample.good_file ++ [xff]) "gpt-3.5-turbo" None 3
    = ([], Raise (UnicodeDecodeError msg)).
Proof.
  apply (finetune_undecodable_upload Sample.world (Sample.good_file ++ [xff])).
  apply Exists_exists. exists xff. split; [|reflexivity].
  apply list_elem_of_In, in_or_app. right. left. reflexivity.
Defined.

End ParseSpec.

(** ** More on the fine-tuning endpoint *)

Module FinetuneMore.

(** How the submission block ends: with the envelope around the job's
    [id] when both provider calls return an object that has one, and with
    the constructor's [TypeError] in every other case. *)
Lemma submission_block_outcome (w : World) file m (suffix : PyVal) n :
  outcome (submission_block w file m suffix n) =
    match upload_training_file w file with
    | Return up =>
        match getitem up "id" with
        | Return file_id =>
            match fine_tune_openai_model w file_id m suffix n with
            | Return res =>
                match getitem res "id" with
                | Return job_id => Return (finetune_envelope job_id)
                | Raise _ => Raise missing_status_code
                end
            | Raise _ => Raise missing_status_code
            end
        | Raise _ => Raise missing_status_code
        end
    | Raise _ => Raise missing_status_code
    end.
Proof.
  unfold submission_block.
  destruct (upload_training_file w file) as [up|e]; [|reflexivity]. cbn.
  destruct (getitem up "id") as [file_id|e]; [|reflexivity]. cbn.
  destruct (fine_tune_openai_model w file_id m suffix n) as [res|e]; [|reflexivity].
  cbn. now destruct (getitem res "id").
Qed.

(** X14: the whole accepted path, for a suffix given or not.  The raw
    bytes of the upload, not the decoded text, go to the provider; the
    [id] of its answer, the requested model, the suffix and the epoch
    count go to the job submission; and the [id] of the job's answer comes
    back in the success envelope. *)
Theorem finetune_success (w : World) file m (s : option string) n
    recs up file_id res job_id :
  parsed_records w file = Return recs ->
  validate_data_format w recs = Return [] ->
  validate_messages w recs = Return [] ->
  upload_training_file w file = Return up ->
  getitem up "id" = Return file_id ->
  fine_tune_openai_model w file_id m
    (default finetune_suffix_default (VStr <$> s)) n = Return res ->
  getitem res "id" = Return job_id ->
  finetune w file m s n =
    ([CallValidateDataFormat recs; CallValidateMessages recs;
      CallUploadTrainingFile file;
      CallFineTuneOpenaiModel file_id m
        (default finetune_suffix_default (VStr <$> s)) n],
     Return (finetune_envelope job_id)).
Proof.
  intros Hp H1 H2 Hup Hfid Hft Hjob.
  rewrite (FinetuneSpec.finetune_accepted w file m s n recs Hp H1 H2).
  rewrite FinetuneSpec.submission_block_trace, submission_block_outcome.
  now rewrite Hup, Hfid, Hft, Hjob.
Qed.

Lemma finetune_success_witness :
  finetune Sample.world Sample.good_file "gpt-3.5-turbo" (Some "support-bot") 3 =
    ([CallValidateDataFormat [Sample.good_record];
      CallValidateMessages [Sample.good_record];
      CallUploadTrainingFile Sample.good_file;
      CallFineTuneOpenaiModel (VStr "file-abc123") "gpt-3.5-turbo"
        (VStr "support-bot") 3],
     Return (finetune_envelope (VStr "ftjob-abc123"))).
Proof.
  apply (finetune_success Sample.world Sample.good_file "gpt-3.5-turbo"
           (Some "support-bot") 3 [Sample.good_record]
           [("id", VStr "file-abc123")] (VStr "file-abc123")
           [("id", VStr "ftjob-abc123")] (VStr "ftjob-abc123")).
  - vm_compute. reflexivity.
  - reflexivity.
  - reflexivity.
  - reflexivity.
  - reflexivity.
  - reflexivity.
  - reflexivity.
Defined.

Lemma getitem_missing (d : PyDict) (key : string) :
  contains d key = false -> getitem d key = Raise (KeyError key).
Proof.
  induction d as [|[k v] d IH]; cbn; [reflexivity|].
  intros H. apply orb_false_iff in H as [Hk Hd]. rewrite Hk. now apply IH.
Qed.

(** The run of [finetune] in full, stage by stage. *)
Lemma finetune_shape (w : World) file m (s : option string) n :
  finetune w file m s n =
    match parsed_records w file with
    | Raise e => ([], Raise e)
    | Return recs =>
        match validate_data_format w recs with
        | Raise e => ([CallValidateDataFormat recs], Raise e)
        | Return d1 =>
            match validate_messages w recs with
            | Raise e =>
                ([CallValidateDataFormat recs; CallValidateMessages recs], Raise e)
            | Return d2 =>
                if negb (truthy d2) && negb (truthy d1) then
                  (CallValidateDataFormat recs :: CallValidateMessages recs
                     :: trace (submission_block w file m
                                 (default finetune_suffix_default (VStr <$> s)) n),
                   outcome (submission_block w file m
                              (default finetune_suffix_default (VStr <$> s)) n))
                else
                  ([CallValidateDataFormat recs; CallValidateMessages recs],
                   Raise (UnboundLocalError "fine_tuning_job_id"))
            end
        end
    end.
Proof.
  destruct (parsed_records w file) as [recs|e] eqn:Hp;
    [|now apply FinetuneSpec.finetune_unparsed].
  destruct (validate_data_format w recs) as [d1|e] eqn:H1;
    [|now apply FinetuneSpec.finetune_format_validator_raises].
  destruct (validate_messages w recs) as [d2|e] eqn:H2;
    [|now apply (FinetuneSpec.finetune_messages_validator_raises _ _ _ _ _ _ d1)].
  destruct d1 as [|x d1], d2 as [|y d2]; cbn [truthy negb andb].
  - now apply FinetuneSpec.finetune_accepted.
  - apply (FinetuneSpec.finetune_rejected _ _ _ _ _ _ [] (y :: d2)); auto.
  - apply (FinetuneSpec.finetune_rejected _ _ _ _ _ _ (x :: d1) []); auto.
  - apply (FinetuneSpec.finetune_rejected _ _ _ _ _ _ (x :: d1) (y :: d2)); auto.
Qed.

(** X15: whatever [finetune] returns is the success envelope.  A returned
    response vouches that the upload parsed, both validators returned an
    empty collection, both provider calls returned an object with an [id],
    and the [id] in the response is the job's.  No response with
    [success: False] is ever returned. *)
Theorem finetune_returns_only_success (w : World) file m (s : option string) n
    (response : PyDict) :
  outcome (finetune w file m s n) = Return response ->
  exists recs up file_id res job_id,
    parsed_records w file = Return recs
    /\ validate_data_format w recs = Return []
    /\ validate_messages w recs = Return []
    /\ upload_training_file w file = Return up
    /\ getitem up "id" = Return file_id
    /\ fine_tune_openai_model w file_id m
         (default finetune_suffix_default (VStr <$> s)) n = Return res
    /\ getitem res "id" = Return job_id
    /\ response = finetune_envelope job_id
    /\ getitem response "success" = Return (VBool true).
Proof.
  rewrite finetune_shape.
  destruct (parsed_records w file) as [recs|e] eqn:Hp; [|discriminate].
  destruct (validate_data_format w recs) as [d1|e] eqn:H1; [|discriminate].
  destruct (validate_messages w recs) as [d2|e] eqn:H2; [|discriminate].
  destruct d1, d2; cbn [truthy negb andb]; try discriminate.
  cbn [outcome snd]. fold (outcome (submission_block w file m
    (default finetune_suffix_default (VStr <$> s)) n)).
  rewrite submission_block_outcome.
  destruct (upload_training_file w file) as [up|e] eqn:Hup; [|discriminate].
  destruct (getitem up "id") as [file_id|e] eqn:Hfid; [|discriminate].
  destruct (fine_tune_openai_model w file_id m _ n) as [res|e] eqn:Hft; [|discriminate].
  destruct (getitem res "id") as [job_id|e] eqn:Hjob; [|discriminate].
  intros [= <-]. exists recs, up, file_id, res, job_id. repeat split; auto.
Qed.

Lemma finetune_returns_only_success_witness :
  exists recs up file_id res job_id,
    parsed_records Sample.world Sample.good_file = Return recs
    /\ validate_data_format Sample.world recs = Return []
    /\ validate_messages Sample.world recs = Return []
    /\ upload_training_file Sample.world Sample.good_file = Return up
    /\ getitem up "id" = Return file_id
    /\ fine_tune_openai_model Sample.world file_id "gpt-3.5-turbo"
         (default finetune_suffix_default (VStr <$> None)) 3 = Return res
    /\ getitem res "id" = Return job_id
    /\ finetune_envelope (VStr "ftjob-abc123") = finetune_envelope job_id
    /\ getitem (finetune_envelope (VStr "ftjob-abc123")) "success"
       = Return (VBool true).
Proof.
  apply (finetune_returns_only_success Sample.world Sample.good_file
           "gpt-3.5-turbo" None 3 (finetune_envelope (VStr "ftjob-abc123"))).
  vm_compute. reflexivity.
Defined.

(** X16: when the upload's answer has no [id], the handler ends in the
    [TypeError] of its [except] clause and the job submission is not
    called: the log stops at the upload. *)
Theorem finetune_missing_file_id (w : World) file m (s : option string) n recs up :
  parsed_records w file = Return recs ->
  validate_data_format w recs = Return [] ->
  validate_messages w recs = Return [] ->
  upload_training_file w file = Return up ->
  contains up "id" = false ->
  finetune w file m s n =
    ([CallValidateDataFormat recs; CallValidateMessages recs;
      CallUploadTrainingFile file],
     Raise missing_status_code).
Proof.
  intros Hp H1 H2 Hup Hid. apply getitem_missing in Hid.
  rewrite (FinetuneSpec.finetune_accepted w file m s n recs Hp H1 H2).
  rewrite FinetuneSpec.submission_block_trace, submission_block_outcome.
  now rewrite Hup, Hid.
Qed.

Lemma finetune_missing_file_id_witness :
  finetune Sample.no_file_id_world Sample.good_file "gpt-3.5-turbo" None 3 =
    ([CallValidateDataFormat [Sample.good_record];
      CallValidateMessages [Sample.good_record];
      CallUploadTrainingFile Sample.good_file],
     Raise missing_status_code).
Proof.
  apply (finetune_missing_file_id Sample.no_file_id_world Sample.good_file
           "gpt-3.5-turbo" None 3 [Sample.good_record] [("object", VStr "file")]).
  - vm_compute. reflexivity.
  - reflexivity.
  - reflexivity.
  - reflexivity.
  - reflexivity.
Defined.

(** X17: when the job's answer has no [id], the handler ends in the same
    [TypeError] although the job submission has been made: the log holds
    the call, the caller gets no job identifier. *)
Theorem finetune_missing_job_id (w : World) file m (s : option string) n
    recs up file_id res :
  parsed_records w file = Return recs ->
  validate_data_format w recs = Return [] ->
  validate_messages w recs = Return [] ->
  upload_training_file w file = Return up ->
  getitem up "id" = Return file_id ->
  fine_tune_openai_model w file_id m
    (default finetune_suffix_default (VStr <$> s)) n = Return res ->
  contains res "id" = false ->
  finetune w file m s n =
    ([CallValidateDataFormat recs; CallValidateMessages recs;
      CallUploadTrainingFile file;
      CallFineTuneOpenaiModel file_id m
        (default finetune_suffix_default (VStr <$> s)) n],
     Raise missing_status_code).
Proof.
  intros Hp H1 H2 Hup Hfid Hft Hid. apply getitem_missing in Hid.
  rewrite (FinetuneSpec.finetune_accepted w file m s n recs Hp H1 H2).
  rewrite FinetuneSpec.submission_block_trace, submission_block_outcome.
  now rewrite Hup, Hfid, Hft, Hid.
Qed.

Lemma finetune_missing_job_id_witness :
  finetune Sample.no_job_id_world Sample.good_file "gpt-3.5-turbo" None 3 =
    ([CallValidateDataFormat [Sample.good_record];
      CallValidateMessages [Sample.good_record];
      CallUploadTrainingFile Sample.good_file;
      CallFineTuneOpenaiModel (VStr "file-abc123") "gpt-3.5-turbo"
        finetune_suffix_default 3],
     Raise missing_status_code).
Proof.
  apply (finetune_missing_job_id Sample.no_job_id_world Sample.good_file
           "gpt-3.5-turbo" None 3 [Sample.good_record]
           [("id", VStr "file-abc123")] (VStr "file-abc123")
           [("object", VStr "fine_tuning.job")]).
  - vm_compute. reflexivity.
  - reflexivity.
  - reflexivity.
  - reflexivity.
  - reflexivity.
  - reflexivity.
  - reflexivity.
Defined.

Ltac finetune_cases w file m s n :=
  rewrite (finetune_shape w file m s n);
  destruct (parsed_records w file) as [?recs|?e] eqn:?Hp;
  [destruct (validate_data_format w recs) as [?d1|?e] eqn:?H1;
   [destruct (validate_messages w recs) as [?d2|?e] eqn:?H2;
    [destruct d1, d2; cbn [truthy negb andb]|]|]|];
  cbn [trace outcome fst snd];
  fold (trace (submission_block w file m
                 (default finetune_suffix_default (VStr <$> s)) n));
  rewrite ?FinetuneSpec.submission_block_trace.

(** X18: the two validators are not fail-fast between themselves.  When
    the format validator returns, with errors or without, the messages
    validator is called next on the same records; each is called once. *)
Theorem finetune_both_validators_run (w : World) file m (s : option string) n
    recs (d1 : PyDict) :
  parsed_records w file = Return recs ->
  validate_data_format w recs = Return d1 ->
  exists rest,
    trace (finetune w file m s n)
    = CallValidateDataFormat recs :: CallValidateMessages recs :: rest
    /\ existsb is_validator_call rest = false.
Proof.
  intros Hp H1. rewrite (finetune_shape w file m s n), Hp, H1.
  destruct (validate_messages w recs) as [d2|e]; [|cbn; eauto].
  destruct (negb (truthy d2) && negb (truthy d1)); [|cbn; eauto].
  cbn [trace fst]. fold (trace (submission_block w file m
    (default finetune_suffix_default (VStr <$> s)) n)).
  rewrite FinetuneSpec.submission_block_trace.
  eexists. split; [reflexivity|].
  destruct (upload_training_file w file) as [up|e]; [|reflexivity].
  now destruct (getitem up "id").
Qed.

Lemma finetune_both_validators_run_witness :
  exists rest,
    trace (finetune Sample.world Sample.bad_shape_file "gpt-3.5-turbo" None 3)
    = CallValidateDataFormat [Sample.bad_shape_record]
      :: CallValidateMessages [Sample.bad_shape_record] :: rest
    /\ existsb is_validator_call rest = false.
Proof.
  apply (finetune_both_validators_run Sample.world Sample.bad_shape_file
           "gpt-3.5-turbo" None 3 [Sample.bad_shape_record]
           [("missing_messages_list", VInt 1)]).
  - vm_compute. reflexivity.
  - vm_compute. reflexivity.
Defined.

(** X19: an exception raised by a validator is not a validation failure
    and is not translated: it leaves the handler as it is, the messages
    validator is not called after a format validator that raised, and the
    provider is not called. *)
Theorem finetune_validator_exception_escapes (w : World) file m (s : option string) n
    recs (e : exn) :
  parsed_records w file = Return recs ->
  validate_data_format w recs = Raise e
  \/ ((exists d1, validate_data_format w recs = Return d1)
      /\ validate_messages w recs = Raise e) ->
  finetune w file m s n =
    (CallValidateDataFormat recs
       :: match validate_data_format w recs with
          | Return _ => [CallValidateMessages recs]
          | Raise _ => []
          end,
     Raise e).
Proof.
  intros Hp [H1|[[d1 H1] H2]]; rewrite (finetune_shape w file m s n), Hp, H1.
  - reflexivity.
  - now rewrite H2.
Qed.

Lemma finetune_validator_exception_escapes_witness :
  finetune Sample.crashing_validator_world Sample.good_file "gpt-3.5-turbo" None 3 =
    ([CallValidateDataFormat [Sample.good_record]],
     Raise (OtherException "AttributeError" "'list' object has no attribute 'get'")).
Proof.
  apply (finetune_validator_exception_escapes Sample.crashing_validator_world
           Sample.good_file "gpt-3.5-turbo" None 3 [Sample.good_record]).
  - vm_compute. reflexivity.
  - left. reflexivity.
Defined.

(** X20: a job is only ever submitted for the file just uploaded.  Every
    job submission in the log carries the [id] of the answer the upload of
    this very file returned, together with the request's model, suffix and
    epoch count unchanged. *)
Theorem finetune_job_references_upload (w : World) file m (s : option string) n
    (file_id suffix : PyVal) (model : string) (n_epochs : Z) :
  In (CallFineTuneOpenaiModel file_id model suffix n_epochs)
     (trace (finetune w file m s n)) ->
  (exists up, upload_training_file w file = Return up
              /\ getitem up "id" = Return file_id)
  /\ In (CallUploadTrainingFile file) (trace (finetune w file m s n))
  /\ model = m
  /\ suffix = default finetune_suffix_default (VStr <$> s)
  /\ n_epochs = n.
Proof.
  finetune_cases w file m s n;
    try (intros Hin; cbn in Hin; decompose [or] Hin; discriminate || contradiction).
  destruct (upload_training_file w file) as [up|e] eqn:Hup.
  2:{ intros Hin; cbn in Hin; decompose [or] Hin; discriminate || contradiction. }
  destruct (getitem up "id") as [fid|e] eqn:Hfid.
  2:{ intros Hin; cbn in Hin; decompose [or] Hin; discriminate || contradiction. }
  intros Hin. cbn in Hin.
  destruct Hin as [Hin|[Hin|[Hin|[Hin|[]]]]]; try discriminate.
  injection Hin as <- <- <- <-.
  split; [eauto|]. split; [cbn; auto|]. auto.
Qed.

Lemma finetune_job_references_upload_witness :
  (exists up, upload_training_file Sample.world Sample.good_file = Return up
              /\ getitem up "id" = Return (VStr "file-abc123"))
  /\ In (CallUploadTrainingFile Sample.good_file)
        (trace (finetune Sample.world Sample.good_file "gpt-3.5-turbo" None 3))
  /\ "gpt-3.5-turbo" = "gpt-3.5-turbo"
  /\ finetune_suffix_default = default finetune_suffix_default (VStr <$> None)
  /\ 3 = 3.
Proof.
  apply (finetune_job_references_upload Sample.world Sample.good_file
           "gpt-3.5-turbo" None 3 (VStr "file-abc123") finetune_suffix_default
           "gpt-3.5-turbo" 3).
  vm_compute. tauto.
Defined.

(** X21: one submission costs at most two validator calls, one upload and
    one job submission, none of them repeated, and [finetune] never calls a
    generation routine. *)
Theorem finetune_call_budget (w : World) file m (s : option string) n :
  (length (List.filter is_validator_call (trace (finetune w file m s n))) <= 2)%nat
  /\ (length (List.filter is_upload_call (trace (finetune w file m s n))) <= 1)%nat
  /\ (length (List.filter is_job_call (trace (finetune w file m s n))) <= 1)%nat
  /\ existsb is_generation_call (trace (finetune w file m s n)) = false.
Proof.
  finetune_cases w file m s n; try (cbn; repeat split; lia).
  destruct (upload_training_file w file) as [up|e]; [|cbn; repeat split; lia].
  destruct (getitem up "id"); cbn; repeat split; lia.
Qed.

End FinetuneMore.
